(** * pressure-meter: decoding, format detection, scanning and polling

    A shallow embedding of the Go package [pressure]
    (device.go, scanner.go, types.go, config.go) and the properties of
    its acquisition and discovery engine.

    Conventions of the embedding
    - [float64] values are IEEE-754 binary64 numbers, modelled by the
      Standard Library's [spec_float] with precision 53 and [emax] 1024;
      every arithmetic operation is the correctly rounded one.
    - a [[]byte] is a [list byte]; indexing out of range is a run-time
      panic, modelled by [None].
    - Go's [int], [int32], [uint32] and [time.Duration] are [Z], with
      the wrap-around of conversions written out.
    - logging has no effect on results and is left out. *)

From Stdlib Require Import ZArith List FinFun Bool Lia String Ascii QArith.
From Stdlib Require Import Strings.Byte.
From Stdlib Require Import Floats.SpecFloat.
From Stdlib Require Import DecimalString.
Import ListNotations.

Local Open Scope Z_scope.

(* ================================================================== *)
(** ** IEEE-754 binary64, the [float64] of the program *)
(* ================================================================== *)

Module F64.

Definition prec : Z := 53.
Definition emax : Z := 1024.

Definition float64 : Type := spec_float.

Definition add : float64 -> float64 -> float64 := SFadd prec emax.
Definition sub : float64 -> float64 -> float64 := SFsub prec emax.
Definition mul : float64 -> float64 -> float64 := SFmul prec emax.
Definition div : float64 -> float64 -> float64 := SFdiv prec emax.

(** Go's [==], [<], [<=] on floats: false as soon as a NaN is involved. *)
Definition eqb : float64 -> float64 -> bool := SFeqb.
Definition ltb : float64 -> float64 -> bool := SFltb.
Definition leb : float64 -> float64 -> bool := SFleb.
Definition gtb (x y : float64) : bool := ltb y x.
Definition geb (x y : float64) : bool := leb y x.
Definition neqb (x y : float64) : bool := negb (eqb x y).

(** [float64(n)] for an integer [n]: rounded to nearest, ties to even. *)
Definition of_int (n : Z) : float64 := binary_normalize prec emax n 0 false.

Definition zero : float64 := S754_zero false.

(** [math.IsNaN] and [math.IsInf(x, 0)]. *)
Definition IsNaN (x : float64) : bool :=
  match x with S754_nan => true | _ => false end.
Definition IsInf (x : float64) : bool :=
  match x with S754_infinity _ => true | _ => false end.

Definition min_int64 : Z := - 2 ^ 63.
Definition max_int64 : Z := 2 ^ 63 - 1.

(** [int(x)]: truncation toward zero.  For NaN, infinities and values
    outside the range of [int] the language leaves the result to the
    implementation; the value taken here is the one of amd64
    (the "integer indefinite" [-2^63]). *)
Definition to_int (x : float64) : Z :=
  match x with
  | S754_zero _ => 0
  | S754_finite s m e =>
      let mag := if 0 <=? e then Z.shiftl (Zpos m) e
                 else Z.shiftr (Zpos m) (- e) in
      let v := if s then - mag else mag in
      if (min_int64 <=? v) && (v <=? max_int64) then v else min_int64
  | _ => min_int64
  end.

(** The exact rational value of a finite float (0 for the others). *)
Definition to_Q (x : float64) : Q :=
  match x with
  | S754_finite s m e =>
      let mag := if 0 <=? e then inject_Z (Z.shiftl (Zpos m) e)
                 else Qmake (Zpos m) (Z.to_pos (2 ^ (- e))) in
      if s then Qopp mag else mag
  | _ => 0%Q
  end.

(** The decimal literals of the source, each the binary64 number
    nearest to the decimal it is written as (a correctly rounded
    quotient of two small integers is that number). *)
Definition lit (num den : Z) : float64 :=
  div (of_int num) (of_int den).

Definition c0_2 : float64 := Eval vm_compute in lit 2 10.
Definition c0_3 : float64 := Eval vm_compute in lit 3 10.
Definition c0_4 : float64 := Eval vm_compute in lit 4 10.
Definition c0_5 : float64 := Eval vm_compute in lit 5 10.
Definition c10 : float64 := Eval vm_compute in of_int 10.
Definition c10000 : float64 := Eval vm_compute in of_int 10000.
Definition cm10000 : float64 := Eval vm_compute in of_int (-10000).

End F64.

Definition float64 : Type := F64.float64.

(* ================================================================== *)
(** ** Bytes, slices and a small error monad for run-time panics *)
(* ================================================================== *)

Definition bind {A B : Type} (m : option A) (f : A -> option B) : option B :=
  match m with
  | Some a => f a
  | None => None
  end.

Notation "x <- m ;; k" := (bind m (fun x => k))
  (at level 61, m at next level, right associativity).

(** The numeric value of a byte, [0 .. 255]. *)
Definition u8 (b : byte) : Z := Z.of_N (Byte.to_N b).

(** [data[i]]; [None] is the index-out-of-range panic. *)
Definition index (data : list byte) (i : nat) : option byte :=
  nth_error data i.

(** [int32(u)] for a [uint32] [u]: the same 32 bits read as two's complement. *)
Definition int32_of_uint32 (u : Z) : Z := (u + 2 ^ 31) mod 2 ^ 32 - 2 ^ 31.

(** [uint32(v)] for an [int32] [v]. *)
Definition uint32_of_int32 (v : Z) : Z := v mod 2 ^ 32.

(** [binary.BigEndian.Uint32(b)]:
    [uint32(b[3]) | uint32(b[2])<<8 | uint32(b[1])<<16 | uint32(b[0])<<24]. *)
Definition BigEndian_Uint32 (b : list byte) : option Z :=
  b3 <- index b 3 ;;
  b0 <- index b 0 ;;
  b1 <- index b 1 ;;
  b2 <- index b 2 ;;
  Some (Z.lor (Z.lor (Z.lor (u8 b3) (Z.shiftl (u8 b2) 8))
                     (Z.shiftl (u8 b1) 16))
              (Z.shiftl (u8 b0) 24)).

(** The mathematical reading of four bytes as a big-endian signed
    32-bit two's-complement integer. *)
Definition bigEndianUint32 (b0 b1 b2 b3 : byte) : Z :=
  u8 b0 * 2 ^ 24 + u8 b1 * 2 ^ 16 + u8 b2 * 2 ^ 8 + u8 b3.

Definition bigEndianInt32 (b0 b1 b2 b3 : byte) : Z :=
  let u := bigEndianUint32 b0 b1 b2 b3 in
  if u <? 2 ^ 31 then u else u - 2 ^ 32.

(* ================================================================== *)
(** ** IEEE-754 binary32 bit patterns: [math.Float32frombits] *)
(* ================================================================== *)

(** [math.Float32frombits(bits)] followed by the widening
    [float64(...)], which is exact: the result is the binary64 number of
    the same value, with NaN and the infinities kept. *)
Definition Float32frombits (bits : Z) : float64 :=
  let sign := Z.testbit bits 31 in
  let expo := Z.land (Z.shiftr bits 23) 255 in
  let frac := Z.land bits (2 ^ 23 - 1) in
  if expo =? 255 then
    if frac =? 0 then S754_infinity sign else S754_nan
  else if expo =? 0 then
    match frac with
    | Zpos m => binary_round F64.prec F64.emax sign m (-149)
    | _ => S754_zero sign
    end
  else
    match frac + 2 ^ 23 with
    | Zpos m => binary_round F64.prec F64.emax sign m (expo - 150)
    | _ => S754_zero sign
    end.

(* ================================================================== *)
(** ** Data model (types.go, device.go) *)
(* ================================================================== *)

(** [DataFormatType] is an [int]; two values are named. *)
Definition DataFormatType : Type := Z.
Definition DecimalFormat : DataFormatType := 0.
Definition FloatFormat : DataFormatType := 1.

(** [time.Duration] counts nanoseconds. *)
Definition Duration : Type := Z.
Definition Millisecond : Duration := 1000000.
Definition Second : Duration := 1000 * Millisecond.

(** [time.Time], an opaque instant supplied by the environment. *)
Definition Time : Type := Z.

Record PressureReading : Type := mkReading {
  Timestamp : Time;
  Pressure : float64;
  SlaveID : Z;
  RawData : list byte;
  Valid : bool;
  Error : string
}.

Record Config : Type := mkConfig {
  cfg_Device : string;
  cfg_SlaveID : Z;
  cfg_ReadInterval : Duration;
  cfg_DataFormat : DataFormatType
}.

(** The outcome of a call into the Modbus library: the bytes of the
    answer, or the text of the transport error. *)
Inductive result (A : Type) : Type :=
| Ok (a : A)
| Err (msg : string).
Arguments Ok {A} a.
Arguments Err {A} msg.

Definition PressureRegisterAddr : Z := 52.
Definition RegisterCount : Z := 2.

(** [%d] of [fmt.Sprintf]. *)
Definition fmt_d (z : Z) : string := NilZero.string_of_int (Z.to_int z).

(* ================================================================== *)
(** ** FrameDecoder (device.go and the static copies of scanner.go) *)
(* ================================================================== *)

(** [(uint32(value) & 0x80000000) == 0x80000000] *)
Definition sign_bit_set (value : Z) : bool :=
  Z.land (uint32_of_int32 value) 2147483648 =? 2147483648.

(** [func (pm *PressureMeter) parseDecimalFormat(data []byte) float64] *)
Definition parseDecimalFormat (data : list byte) : option float64 :=
  u <- BigEndian_Uint32 data ;;
  let value := int32_of_uint32 u in
  d0 <- index data 0 ;;
  if u8 d0 =? 255 then
    Some (F64.div (F64.of_int value) F64.c10)
  else if sign_bit_set value then
    Some (F64.div (F64.of_int value) F64.c10)
  else
    let pressure := F64.div (F64.of_int value) F64.c10 in
    Some pressure.

(** [func parseDecimalFormatStatic(data []byte) float64] *)
Definition parseDecimalFormatStatic (data : list byte) : option float64 :=
  u <- BigEndian_Uint32 data ;;
  let value := int32_of_uint32 u in
  d0 <- index data 0 ;;
  if (u8 d0 =? 255) || sign_bit_set value then
    Some (F64.div (F64.of_int value) F64.c10)
  else
    Some (F64.div (F64.of_int value) F64.c10).

(** The word swap shared by the float decoders:
    [ieeeBytes = {data[2], data[3], data[0], data[1]}]. *)
Definition ieeeBytes (data : list byte) : option (list byte) :=
  d2 <- index data 2 ;;
  d3 <- index data 3 ;;
  d0 <- index data 0 ;;
  d1 <- index data 1 ;;
  Some [d2; d3; d0; d1].

(** [func (pm *PressureMeter) parseFloatFormat(data []byte) float64] *)
Definition parseFloatFormat (data : list byte) : option float64 :=
  ieee <- ieeeBytes data ;;
  bits <- BigEndian_Uint32 ieee ;;
  let pressure := Float32frombits bits in
  Some pressure.

(** [func parseFloatFormatStatic(data []byte) float64] *)
Definition parseFloatFormatStatic (data : list byte) : option float64 :=
  ieee <- ieeeBytes data ;;
  bits <- BigEndian_Uint32 ieee ;;
  let pressure := Float32frombits bits in
  if F64.IsNaN pressure || F64.IsInf pressure then Some F64.zero
  else Some pressure.

(** The session, as far as a single read looks at it. *)
Record MeterConfig : Type := mkMeter {
  slaveID : Z;
  dataFormat : DataFormatType
}.

(** [func (pm *PressureMeter) ReadPressure() PressureReading].
    [now] is [time.Now()] and [answer] what
    [pm.client.ReadHoldingRegisters(PressureRegisterAddr, RegisterCount)]
    returned.  [None] would be a panic inside a decoder. *)
Definition ReadPressure (pm : MeterConfig) (now : Time)
    (answer : result (list byte)) : option PressureReading :=
  match answer with
  | Err err =>
      Some (mkReading now F64.zero (slaveID pm) [] false
              ("讀取壓力數據失敗: " ++ err)%string)
  | Ok results =>
      if negb (Nat.eqb (List.length results) 4) then
        Some (mkReading now F64.zero (slaveID pm) [] false
                ("接收數據長度錯誤: 期望4字節，實際"
                   ++ fmt_d (Z.of_nat (List.length results)) ++ "字節")%string)
      else
        if dataFormat pm =? DecimalFormat then
          p <- parseDecimalFormat results ;;
          Some (mkReading now p (slaveID pm) results true "")
        else if dataFormat pm =? FloatFormat then
          p <- parseFloatFormat results ;;
          Some (mkReading now p (slaveID pm) results true "")
        else
          Some (mkReading now F64.zero (slaveID pm) results false
                  ("未知數據格式: " ++ fmt_d (dataFormat pm))%string)
  end.

(* ================================================================== *)
(** ** FormatClassifier (scanner.go) *)
(* ================================================================== *)

(** [value >= -10000 && value <= 10000] *)
Definition in_pressure_range (value : float64) : bool :=
  F64.geb value F64.cm10000 && F64.leb value F64.c10000.

(** [float64(int(value*10))/10] *)
Definition one_decimal (value : float64) : float64 :=
  F64.div (F64.of_int (F64.to_int (F64.mul value F64.c10))) F64.c10.

(** The confidence a decimal reading has gathered before its raw bytes
    are looked at: the range term and the one-decimal-digit term. *)
Definition decimalValueConfidence (value : float64) : float64 :=
  let confidence := F64.zero in
  let confidence :=
    if in_pressure_range value then F64.add confidence F64.c0_5
    else confidence in
  let confidence :=
    if F64.eqb value (one_decimal value) then F64.add confidence F64.c0_3
    else confidence in
  confidence.

(** [data[0] != 0xFF && (data[0] < 0x80 || data[0] == 0xFF)] *)
Definition looksDecimal (d0 : byte) : bool :=
  negb (u8 d0 =? 255) && ((u8 d0 <? 128) || (u8 d0 =? 255)).

(** [func (s *Scanner) calculateDecimalConfidence(value float64, data []byte) float64] *)
Definition calculateDecimalConfidence (value : float64) (data : list byte)
    : option float64 :=
  let confidence := decimalValueConfidence value in
  d0 <- index data 0 ;;
  let confidence :=
    if looksDecimal d0 then F64.add confidence F64.c0_2 else confidence in
  Some confidence.

(** [func (s *Scanner) calculateFloatConfidence(value float64, data []byte) float64] *)
Definition calculateFloatConfidence (value : float64) (data : list byte)
    : option float64 :=
  let confidence := F64.zero in
  let confidence :=
    if in_pressure_range value
       && negb (F64.IsNaN value) && negb (F64.IsInf value)
    then F64.add confidence F64.c0_4 else confidence in
  let confidence :=
    if F64.neqb value (one_decimal value) then F64.add confidence F64.c0_3
    else confidence in
  ieee <- ieeeBytes data ;;
  bits <- BigEndian_Uint32 ieee ;;
  let exponent := Z.land (Z.shiftr bits 23) 255 in
  let confidence :=
    if (0 <? exponent) && (exponent <? 255)
    then F64.add confidence F64.c0_3 else confidence in
  Some confidence.

(** [func (s *Scanner) detectDataFormat(data []byte) (DataFormatType, float64)] *)
Definition detectDataFormat (data : list byte)
    : option (DataFormatType * float64) :=
  decimalValue <- parseDecimalFormatStatic data ;;
  floatValue <- parseFloatFormatStatic data ;;
  decimalConfidence <- calculateDecimalConfidence decimalValue data ;;
  floatConfidence <- calculateFloatConfidence floatValue data ;;
  if F64.gtb decimalConfidence floatConfidence then
    Some (DecimalFormat, decimalConfidence)
  else
    Some (FloatFormat, floatConfidence).

(** The two confidences [detectDataFormat] compares. *)
Definition confidences (data : list byte) : option (float64 * float64) :=
  decimalValue <- parseDecimalFormatStatic data ;;
  floatValue <- parseFloatFormatStatic data ;;
  decimalConfidence <- calculateDecimalConfidence decimalValue data ;;
  floatConfidence <- calculateFloatConfidence floatValue data ;;
  Some (decimalConfidence, floatConfidence).

(* ================================================================== *)
(** ** Buffered channels *)
(* ================================================================== *)

Module Chan.

(** A buffered Go channel: the queued values, oldest first, and the
    capacity fixed by [make]. *)
Record chan (A : Type) : Type := mk {
  buf : list A;
  cap : nat
}.
Arguments mk {A} buf cap.
Arguments buf {A} c.
Arguments cap {A} c.

(** [make(chan A, n)] *)
Definition make {A : Type} (n : nat) : chan A := mk [] n.

(** [len(c)] *)
Definition len {A : Type} (c : chan A) : nat := List.length (buf c).

(** A send that may proceed: there is room in the buffer.  No receiver
    is parked on the channel in this model, so a send on a full (or
    unbuffered) channel cannot proceed: [None]. *)
Definition send {A : Type} (c : chan A) (x : A) : option (chan A) :=
  if Nat.ltb (len c) (cap c) then Some (mk (buf c ++ [x]) (cap c))
  else None.

(** A receive that may proceed: the oldest value leaves the buffer. *)
Definition recv {A : Type} (c : chan A) : option (A * chan A) :=
  match buf c with
  | [] => None
  | x :: rest => Some (x, mk rest (cap c))
  end.

(** A consumer (GetLastReading, FlushReadings, a range over
    GetReadings) taking up to [k] values. *)
Fixpoint drain {A : Type} (k : nat) (c : chan A) : chan A :=
  match k with
  | O => c
  | S k' =>
      match recv c with
      | Some (_, c') => drain k' c'
      | None => c
      end
  end.

End Chan.

(* ================================================================== *)
(** ** PollingLoop (device.go) *)
(* ================================================================== *)

Definition ReadingBufferSize : nat := 100.

(** The delivery of one reading into [pm.readings], in [Start]:
<<
    select {
    case pm.readings <- reading:
    default:
        select {
        case <-pm.readings:
        default:
        }
        pm.readings <- reading
    }
>>
    [None]: the final, blocking send cannot proceed. *)
Definition deliver {A : Type} (readings : Chan.chan A) (reading : A)
    : option (Chan.chan A) :=
  match Chan.send readings reading with
  | Some readings' => Some readings'
  | None =>
      let readings' :=
        match Chan.recv readings with
        | Some (_, c) => c
        | None => readings
        end in
      Chan.send readings' reading
  end.

(** The same delivery with consumers running in between: [k1] values
    are taken by consumers after the first send was found impossible,
    [k2] after the eviction and before the final send. *)
Definition deliver_interleaved {A : Type} (k1 k2 : nat)
    (readings : Chan.chan A) (reading : A) : option (Chan.chan A) :=
  match Chan.send readings reading with
  | Some readings' => Some readings'
  | None =>
      let readings1 := Chan.drain k1 readings in
      let readings2 :=
        match Chan.recv readings1 with
        | Some (_, c) => c
        | None => readings1
        end in
      Chan.send (Chan.drain k2 readings2) reading
  end.

(** Successive deliveries. *)
Fixpoint deliver_all {A : Type} (readings : Chan.chan A) (rs : list A)
    : option (Chan.chan A) :=
  match rs with
  | [] => Some readings
  | r :: rest =>
      readings' <- deliver readings r ;;
      deliver_all readings' rest
  end.

(** The goroutine started by [Start]: parked at its [select] with or
    without a tick waiting in [ticker.C], or returned. *)
Inductive goroutine : Type :=
| Polling (tick_pending : bool)
| Returned.

(** [type PressureMeter struct]; [stopCh] is never sent on, only closed,
    so all there is to it is whether it has been closed. *)
Record PressureMeter : Type := mkPM {
  pm_meter : MeterConfig;
  readings : Chan.chan PressureReading;
  stopCh_closed : bool;
  running : bool;
  loops : list goroutine
}.

Definition set_readings (pm : PressureMeter) (c : Chan.chan PressureReading)
    : PressureMeter :=
  mkPM (pm_meter pm) c (stopCh_closed pm) (running pm) (loops pm).

Definition set_loops (pm : PressureMeter) (l : list goroutine)
    : PressureMeter :=
  mkPM (pm_meter pm) (readings pm) (stopCh_closed pm) (running pm) l.

(** [func NewPressureMeter(config Config)], returning a session or an error;
    [connect] is what [handler.Connect()] returned. *)
Definition NewPressureMeter (config : Config) (connect : result unit)
    : result PressureMeter :=
  if (cfg_SlaveID config <? 1) || (247 <? cfg_SlaveID config) then
    Err ("invalid slave ID: " ++ fmt_d (cfg_SlaveID config)
           ++ ", must be 1-247")%string
  else
    let config :=
      if cfg_ReadInterval config =? 0
      then mkConfig (cfg_Device config) (cfg_SlaveID config) Second
             (cfg_DataFormat config)
      else config in
    match connect with
    | Err err =>
        Err ("failed to connect to device " ++ cfg_Device config
               ++ ": " ++ err)%string
    | Ok _ =>
        Ok (mkPM (mkMeter (cfg_SlaveID config) (cfg_DataFormat config))
              (Chan.make ReadingBufferSize) false false [])
    end.

(** [fmtFrac] of package time: the fraction of [v / 10^prec] in front
    of [tail], trailing zeros and an empty fraction left out, and the
    integer part [v / 10^prec]. *)
Fixpoint fmtFrac (prec : nat) (v : Z) (print : bool) (tail : string)
    : string * Z :=
  match prec with
  | O => (if print then String "." tail else tail, v)
  | S prec' =>
      let digit := v mod 10 in
      let print := print || negb (digit =? 0) in
      let tail :=
        if print then String (ascii_of_N (Z.to_N (48 + digit))) tail
        else tail in
      fmtFrac prec' (v / 10) print tail
  end.

(** [func (d Duration) String() string], which [%v] prints. *)
Definition Duration_String (d : Duration) : string :=
  let u := Z.abs d in
  let text :=
    if u <? Second then
      if u =? 0 then "0s"%string
      else if u <? 1000 then
        let r := fmtFrac 0 u false "ns" in (fmt_d (snd r) ++ fst r)%string
      else if u <? Millisecond then
        let r := fmtFrac 3 u false "µs" in (fmt_d (snd r) ++ fst r)%string
      else
        let r := fmtFrac 6 u false "ms" in (fmt_d (snd r) ++ fst r)%string
    else
      let r := fmtFrac 9 u false "s" in
      let u := snd r in
      let text := (fmt_d (u mod 60) ++ fst r)%string in
      let u := u / 60 in
      if 0 <? u then
        let text := (fmt_d (u mod 60) ++ "m" ++ text)%string in
        let u := u / 60 in
        if 0 <? u then (fmt_d u ++ "h" ++ text)%string else text
      else text in
  if d <? 0 then String "-" text else text.

(** [func (cl *ConfigLoader) validateConfig(config *Config) error]
    (config.go); [None] is the [nil] error.  The existence test of the
    device path only logs a warning. *)
Definition validateConfig (config : Config) : option string :=
  if String.eqb (cfg_Device config) "" then
    Some "設備路徑不能為空"%string
  else if (cfg_SlaveID config <? 1) || (247 <? cfg_SlaveID config) then
    Some ("站點號必須在 1-247 之間，當前: " ++ fmt_d (cfg_SlaveID config))%string
  else if cfg_ReadInterval config <? 100 * Millisecond then
    Some ("讀取間隔不能小於 100ms，當前: "
            ++ Duration_String (cfg_ReadInterval config))%string
  else None.

(** What can happen to a session. *)
Inductive event : Type :=
| EvStart (interval : Duration)
    (** a call of [Start] *)
| EvStop
    (** a call of [Stop] *)
| EvTick (i : nat)
    (** the ticker of the [i]-th goroutine fires *)
| EvSelect (i : nat) (pick_stop : bool) (now : Time)
           (answer : result (list byte))
    (** the [i]-th goroutine runs its [select] once; [pick_stop] is the
        choice of the run time when both cases are ready, [now] and
        [answer] the clock and the device's answer if it reads *)
| EvConsume (k : nat)
    (** consumers take up to [k] readings *).

Fixpoint update_nth {A : Type} (i : nat) (x : A) (l : list A) : list A :=
  match l, i with
  | [], _ => []
  | _ :: t, O => x :: t
  | h :: t, S i' => h :: update_nth i' x t
  end.

(** One iteration of the loop of [Start]'s goroutine. *)
Definition select_once (pm : PressureMeter) (i : nat) (pick_stop : bool)
    (now : Time) (answer : result (list byte)) : option PressureMeter :=
  match nth_error (loops pm) i with
  | Some (Polling tick_pending) =>
      let stop_ready := stopCh_closed pm in
      if negb stop_ready && negb tick_pending then Some pm
      else
        let take_stop :=
          if stop_ready && tick_pending then pick_stop else stop_ready in
        if take_stop then
          Some (set_loops pm (update_nth i Returned (loops pm)))
        else
          reading <- ReadPressure (pm_meter pm) now answer ;;
          readings' <- deliver (readings pm) reading ;;
          Some (set_loops (set_readings pm readings')
                  (update_nth i (Polling false) (loops pm)))
  | _ => Some pm
  end.

(** One event; [None] is a panic (or a producer blocked for good). *)
Definition step (pm : PressureMeter) (ev : event) : option PressureMeter :=
  match ev with
  | EvStart interval =>
      if running pm then Some pm
      else if interval <=? 0 then None
      else
        Some (mkPM (pm_meter pm) (readings pm) (stopCh_closed pm) true
                (loops pm ++ [Polling false]))
  | EvStop =>
      if negb (running pm) then Some pm
      else if stopCh_closed pm then None
      else Some (mkPM (pm_meter pm) (readings pm) true false (loops pm))
  | EvTick i =>
      match nth_error (loops pm) i with
      | Some (Polling _) =>
          Some (set_loops pm (update_nth i (Polling true) (loops pm)))
      | _ => Some pm
      end
  | EvSelect i pick_stop now answer => select_once pm i pick_stop now answer
  | EvConsume k => Some (set_readings pm (Chan.drain k (readings pm)))
  end.

Fixpoint run (pm : PressureMeter) (evs : list event) : option PressureMeter :=
  match evs with
  | [] => Some pm
  | ev :: rest =>
      pm' <- step pm ev ;;
      run pm' rest
  end.

(* ================================================================== *)
(** ** RunningStatistics (types.go) *)
(* ================================================================== *)

Record Statistics : Type := mkStats {
  Count : Z;
  Min : float64;
  Max : float64;
  Mean : float64;
  StdDev : float64;
  LastTime : Time
}.

(** The zero value [Statistics{}], also what [Reset] leaves. *)
Definition Statistics_zero : Statistics :=
  mkStats 0 F64.zero F64.zero F64.zero F64.zero 0.

(** [func (s *Statistics) Update(value float64)]; [now] is [time.Now()]. *)
Definition Update (s : Statistics) (value : float64) (now : Time)
    : Statistics :=
  let s1 :=
    if Count s =? 0 then
      mkStats (Count s) value value value (StdDev s) (LastTime s)
    else
      let min' := if F64.ltb value (Min s) then value else Min s in
      let max' := if F64.gtb value (Max s) then value else Max s in
      let oldMean := Mean s in
      let mean' :=
        F64.add oldMean
          (F64.div (F64.sub value oldMean) (F64.of_int (Count s + 1))) in
      let stddev' :=
        if 0 <? Count s then
          F64.add (StdDev s)
            (F64.mul (F64.sub value oldMean) (F64.sub value mean'))
        else StdDev s in
      mkStats (Count s) min' max' mean' stddev' (LastTime s) in
  let count' := Count s1 + 1 in
  let stddev'' :=
    if 1 <? count' then F64.div (StdDev s1) (F64.of_int (count' - 1))
    else StdDev s1 in
  mkStats count' (Min s1) (Max s1) (Mean s1) stddev'' now.

(** [func (s *Statistics) Reset()] *)
Definition Reset (s : Statistics) : Statistics := Statistics_zero.

(** Feeding a list of values, oldest first, the clock standing at [now]. *)
Definition feed (s : Statistics) (values : list float64) (now : Time)
    : Statistics :=
  fold_left (fun acc v => Update acc v now) values s.

(** The sample variance [sum (x_i - mean)^2 / (n - 1)] of a sample, in
    exact rational arithmetic. *)
Definition Qsum (l : list Q) : Q := fold_right Qplus 0%Q l.

Definition sample_mean (l : list Q) : Q :=
  (Qsum l / inject_Z (Z.of_nat (List.length l)))%Q.

Definition sample_variance (l : list Q) : Q :=
  let m := sample_mean l in
  (Qsum (map (fun x => (x - m) * (x - m)) l)
     / inject_Z (Z.of_nat (List.length l) - 1))%Q.

(* ================================================================== *)
(** ** DiscoveryEngine (scanner.go) *)
(* ================================================================== *)

(** A value stored in [DeviceInfo.Properties]. *)
Inductive prop_value : Type :=
| PInt (n : Z)
| PBool (b : bool)
| PFloat (x : float64)
| PString (s : string).

Record DeviceInfo : Type := mkDevice {
  Device : string;
  dev_SlaveID : Z;
  Responsive : bool;
  DataFormat : DataFormatType;
  LastReading : option PressureReading;
  Properties : list (string * prop_value);
  ScanTime : Time;
  dev_Error : string
}.

Record ScanConfig : Type := mkScanConfig {
  SerialPorts : list string;
  SlaveIDs : list Z;
  BaudRates : list Z;
  ScanTimeout : Duration;
  MaxDevices : Z;
  AutoDetectFormat : bool;
  Parallel : bool;
  SkipUnresponsive : bool
}.

Record ScanResult : Type := mkScanResult {
  Devices : list DeviceInfo;
  TotalTested : Z;
  Successful : Z;
  res_Config : ScanConfig
}.

(** What one probe of (port, baud rate, station) meets. *)
Inductive probe_result : Type :=
| ConnectFailed (err : string)
| ReadFailed (err : string)
| Answer (results : list byte).

(** The host and the bus, as the scanner sees them: the outcome of
    [serial.GetPortsList()] and of every probe.  The clock stands still
    at [clock]; response times and the elapsed scan time are left out. *)
Record World : Type := mkWorld {
  GetPortsList : result (list string);
  probe : string -> Z -> Z -> probe_result;
  clock : Time
}.

(** [func generateSlaveIDRange(start, end int) []byte] for
    [0 <= start], [end <= 255]. *)
Definition generateSlaveIDRange (start stop : Z) : list Z :=
  map (fun i => start + Z.of_nat i) (seq 0 (Z.to_nat (stop - start + 1))).

(** [func GetDefaultScanConfig() ScanConfig] *)
Definition GetDefaultScanConfig : ScanConfig :=
  mkScanConfig [] (generateSlaveIDRange 1 247) [9600; 19200; 38400; 115200]
    (2 * Second) 20 true false true.

(** [func GetQuickScanConfig() ScanConfig] *)
Definition GetQuickScanConfig : ScanConfig :=
  mkScanConfig [] [22; 1; 2; 3; 4; 5] [9600] (1 * Second) 10 true false true.

(** [strings.ToLower] on ASCII text, where it turns the letters A to Z
    into a to z and leaves every other byte.  Text with a byte above
    0x7F, which the library lowers by its Unicode tables, is outside
    this model; [is_ascii] marks the text inside it. *)
Definition lower_ascii (c : ascii) : ascii :=
  let n := nat_of_ascii c in
  if Nat.leb 65 n && Nat.leb n 90 then ascii_of_nat (n + 32) else c.

Fixpoint ToLower (s : string) : string :=
  match s with
  | EmptyString => EmptyString
  | String c rest => String (lower_ascii c) (ToLower rest)
  end.

Fixpoint is_ascii (s : string) : bool :=
  match s with
  | EmptyString => true
  | String c rest => Nat.ltb (nat_of_ascii c) 128 && is_ascii rest
  end.

(** [strings.Contains(s, substr)] *)
Definition Contains (s substr : string) : bool :=
  match String.index 0 substr s with
  | Some _ => true
  | None => false
  end.

(** [func (s *Scanner) isLikelyRS485Port(port string) bool] *)
Definition isLikelyRS485Port (port : string) : bool :=
  let patterns :=
    ["ttyUSB"; "ttyACM"; "ttyS"; "COM"; "cu.usbserial"; "cu.wchusbserial";
     "cu.SLAB_USBtoUART"; "cu.usbmodem"]%string in
  let portLower := ToLower port in
  if existsb (fun pattern => Contains portLower (ToLower pattern)) patterns
  then true
  else
    let excludePatterns := ["bluetooth"; "irda"; "printer"]%string in
    if existsb (fun pattern => Contains portLower pattern) excludePatterns
    then false
    else false.

(** [func (s *Scanner) detectSerialPorts() ([]string, error)] *)
Definition detectSerialPorts (w : World) : result (list string) :=
  match GetPortsList w with
  | Err err => Err err
  | Ok ports =>
      let validPorts := filter isLikelyRS485Port ports in
      if Nat.eqb (List.length validPorts) 0 then Ok ports else Ok validPorts
  end.

(** [%02X] *)
Definition hex_digit (n : N) : ascii :=
  ascii_of_N (if (n <? 10)%N then 48 + n else 55 + n)%N.

Definition fmt_02X (b : byte) : string :=
  let n := Byte.to_N b in
  String (hex_digit (n / 16)%N) (String (hex_digit (n mod 16)%N) EmptyString).

(** [func (s *Scanner) testDevice(port string, baudRate int, slaveID byte,
    config ScanConfig) DeviceInfo] *)
Definition testDevice (w : World) (port : string) (baudRate : Z)
    (slaveID : Z) (config : ScanConfig) : option DeviceInfo :=
  let device :=
    mkDevice port slaveID false 0 None [] (clock w) "" in
  match probe w port baudRate slaveID with
  | ConnectFailed err =>
      Some (mkDevice port slaveID false 0 None [] (clock w)
              ("連接失敗: " ++ err)%string)
  | ReadFailed err =>
      Some (mkDevice port slaveID false 0 None [] (clock w)
              ("讀取失敗: " ++ err)%string)
  | Answer results =>
      if Nat.eqb (List.length results) 4 then
        let props := [("baud_rate"%string, PInt baudRate)] in
        r0 <- index results 0 ;;
        r1 <- index results 1 ;;
        r2 <- index results 2 ;;
        r3 <- index results 3 ;;
        let raw :=
          (fmt_02X r0 ++ " " ++ fmt_02X r1 ++ " " ++ fmt_02X r2 ++ " "
             ++ fmt_02X r3)%string in
        if AutoDetectFormat config then
          detected <- detectDataFormat results ;;
          let dataFormat := fst detected in
          let confidence := snd detected in
          pressure <-
            (if dataFormat =? DecimalFormat then parseDecimalFormatStatic results
             else if dataFormat =? FloatFormat then parseFloatFormatStatic results
             else Some F64.zero) ;;
          let reading := mkReading (clock w) pressure slaveID results true "" in
          Some (mkDevice port slaveID true dataFormat (Some reading)
                  (props ++ [("auto_detected_format"%string, PBool true);
                             ("format_confidence"%string, PFloat confidence);
                             ("pressure_pa"%string, PFloat pressure);
                             ("raw_data"%string, PString raw)])
                  (clock w) "")
        else
          Some (mkDevice port slaveID true 0 None
                  (props ++ [("raw_data"%string, PString raw)]) (clock w) "")
      else Some device
  end.

(** [type Scanner struct], as far as results depend on it: the
    [verbose] flag.  The logger and the two time-outs of the struct are
    not read by any function modelled here. *)
Record Scanner : Type := mkScanner {
  verbose : bool
}.

(** [func NewScanner(logger *log.Logger) *Scanner] *)
Definition NewScanner : Scanner := mkScanner true.

(** [func (s *Scanner) SetVerbose(verbose bool) *Scanner] *)
Definition SetVerbose (s : Scanner) (verbose : bool) : Scanner :=
  mkScanner verbose.

(** The log line of [scanPortWithBaudRate]:
<<
    if device.Responsive && s.verbose {
        s.logf(..., slaveID, device.LastReading.Pressure)
    }
>>
    Its last argument dereferences [LastReading], which [testDevice]
    leaves [nil] unless [AutoDetectFormat] is set: [None] is that
    panic. *)
Definition log_found (s : Scanner) (device : DeviceInfo) : option unit :=
  if Responsive device && verbose s then
    match LastReading device with
    | Some _ => Some tt
    | None => None
    end
  else Some tt.

(** The loop of [scanPortWithBaudRate] over the station numbers still
    to try, [devices] being the probes recorded so far. *)
Fixpoint scanSlaveIDs (s : Scanner) (w : World) (port : string)
    (baudRate : Z) (config : ScanConfig) (ids : list Z)
    (devices : list DeviceInfo) : option (list DeviceInfo) :=
  match ids with
  | [] => Some devices
  | slaveID :: rest =>
      device <- testDevice w port baudRate slaveID config ;;
      let devices := devices ++ [device] in
      _ <- log_found s device ;;
      if MaxDevices config <=? Z.of_nat (List.length devices) then Some devices
      else scanSlaveIDs s w port baudRate config rest devices
  end.

(** [func (s *Scanner) scanPortWithBaudRate(port string, baudRate int,
    config ScanConfig) []DeviceInfo] *)
Definition scanPortWithBaudRate (s : Scanner) (w : World) (port : string)
    (baudRate : Z) (config : ScanConfig) : option (list DeviceInfo) :=
  scanSlaveIDs s w port baudRate config (SlaveIDs config) [].

(** [func (s *Scanner) hasResponsiveDevice(devices []DeviceInfo) bool] *)
Definition hasResponsiveDevice (devices : list DeviceInfo) : bool :=
  existsb Responsive devices.

(** The loop of [scanPort] over the baud rates still to try. *)
Fixpoint scanBaudRates (s : Scanner) (w : World) (port : string)
    (config : ScanConfig) (rates : list Z) (devices : list DeviceInfo)
    : option (list DeviceInfo) :=
  match rates with
  | [] => Some devices
  | baudRate :: rest =>
      portDevices <- scanPortWithBaudRate s w port baudRate config ;;
      if Nat.ltb 0 (List.length portDevices) then
        let devices := devices ++ portDevices in
        if hasResponsiveDevice portDevices then Some devices
        else scanBaudRates s w port config rest devices
      else scanBaudRates s w port config rest devices
  end.

(** [func (s *Scanner) scanPort(port string, config ScanConfig) []DeviceInfo] *)
Definition scanPort (s : Scanner) (w : World) (port : string)
    (config : ScanConfig) : option (list DeviceInfo) :=
  scanBaudRates s w port config (BaudRates config) [].

(** The body of the inner loop of [ScanDevices]: one probe is entered
    into the result. *)
Definition record_device (config : ScanConfig) (result : ScanResult)
    (device : DeviceInfo) : ScanResult :=
  let devices :=
    if negb (SkipUnresponsive config) || Responsive device
    then Devices result ++ [device] else Devices result in
  let successful :=
    if Responsive device then Successful result + 1 else Successful result in
  mkScanResult devices (TotalTested result + 1) successful (res_Config result).

(** The loop of [ScanDevices] over the ports still to scan. *)
Fixpoint scanPorts (s : Scanner) (w : World) (config : ScanConfig)
    (ports : list string) (result : ScanResult) : option ScanResult :=
  match ports with
  | [] => Some result
  | port :: rest =>
      portDevices <- scanPort s w port config ;;
      let result := fold_left (record_device config) portDevices result in
      if MaxDevices config <=? Z.of_nat (List.length (Devices result))
      then Some result
      else scanPorts s w config rest result
  end.

(** [func (s *Scanner) ScanDevices(config ScanConfig)], returning a scan
    result or an error; the outer [option] is a panic, the [result] the
    returned error. *)
Definition ScanDevices (s : Scanner) (w : World) (config : ScanConfig)
    : option (result ScanResult) :=
  let result := mkScanResult [] 0 0 config in
  let serialPorts :=
    if Nat.eqb (List.length (SerialPorts config)) 0 then detectSerialPorts w
    else Ok (SerialPorts config) in
  match serialPorts with
  | Err err => Some (Err ("自動檢測串口失敗: " ++ err)%string)
  | Ok serialPorts =>
      r <- scanPorts s w config serialPorts result ;;
      Some (Ok r)
  end.

(** [func (s *Scanner) getResponsiveDevices(devices []DeviceInfo) []DeviceInfo] *)
Definition getResponsiveDevices (devices : list DeviceInfo)
    : list DeviceInfo :=
  filter Responsive devices.

(** The configuration [AutoConfigure] scans with:
    [GetQuickScanConfig()] with [MaxDevices = 1]. *)
Definition autoScanConfig : ScanConfig :=
  let c := GetQuickScanConfig in
  mkScanConfig (SerialPorts c) (SlaveIDs c) (BaudRates c) (ScanTimeout c)
    1 (AutoDetectFormat c) (Parallel c) (SkipUnresponsive c).

(** [func (s *Scanner) AutoConfigure()], returning a configuration or an
    error. *)
Definition AutoConfigure (s : Scanner) (w : World)
    : option (result Config) :=
  let scanConfig := autoScanConfig in
  scanned <- ScanDevices s w scanConfig ;;
  match scanned with
  | Err err => Some (Err ("掃描設備失敗: " ++ err)%string)
  | Ok result =>
      let responsiveDevices := getResponsiveDevices (Devices result) in
      match responsiveDevices with
      | [] => Some (Err "未找到任何響應的壓差儀設備"%string)
      | device :: _ =>
          Some (Ok (mkConfig (Device device) (dev_SlaveID device) Second
                      (DataFormat device)))
      end
  end.

(** A candidate of the quick scan answers: the read succeeds with
    exactly four bytes. *)
Definition responsive_candidate (w : World) (port : string) (baudRate : Z)
    (slaveID : Z) : bool :=
  match probe w port baudRate slaveID with
  | Answer results => Nat.eqb (List.length results) 4
  | _ => false
  end.

(* ================================================================== *)
(** ** The other methods of the session (device.go) *)
(* ================================================================== *)

(** [func (pm *PressureMeter) SetDataFormat(format DataFormatType)] *)
Definition SetDataFormat (pm : PressureMeter) (format : DataFormatType)
    : PressureMeter :=
  mkPM (mkMeter (slaveID (pm_meter pm)) format) (readings pm)
    (stopCh_closed pm) (running pm) (loops pm).

(** [func (pm *PressureMeter) GetStatus() map[string]interface{}]: the
    five entries of the map. *)
Record Status : Type := mkStatus {
  st_running : bool;
  st_slave_id : Z;
  st_data_format : DataFormatType;
  st_queue_size : nat;
  st_queue_capacity : nat
}.

Definition GetStatus (pm : PressureMeter) : Status :=
  mkStatus (running pm) (slaveID (pm_meter pm)) (dataFormat (pm_meter pm))
    (Chan.len (readings pm)) (Chan.cap (readings pm)).

(** [func (pm *PressureMeter) TestConnection() error]; the inner [None]
    is the [nil] error. *)
Definition TestConnection (pm : PressureMeter) (now : Time)
    (answer : result (list byte)) : option (option string) :=
  reading <- ReadPressure (pm_meter pm) now answer ;;
  if negb (Valid reading) then
    Some (Some ("連接測試失敗: " ++ Error reading)%string)
  else Some None.

(** [func (pm *PressureMeter) GetLastReading() *PressureReading]: a
    receive that does not block; [None] is [nil]. *)
Definition GetLastReading (pm : PressureMeter)
    : option PressureReading * PressureMeter :=
  match Chan.recv (readings pm) with
  | Some (reading, c) => (Some reading, set_readings pm c)
  | None => (None, pm)
  end.

(** The loop of [FlushReadings], [fuel] bounding its iterations:
<<
    for {
        select {
        case <-pm.readings: count++
        default: return count
        }
    }
>> *)
Fixpoint flush_loop (fuel : nat) (c : Chan.chan PressureReading) (count : Z)
    : option (Z * Chan.chan PressureReading) :=
  match fuel with
  | O => None
  | S fuel' =>
      match Chan.recv c with
      | Some (_, c') => flush_loop fuel' c' (count + 1)
      | None => Some (count, c)
      end
  end.

(** [func (pm *PressureMeter) FlushReadings() int] *)
Definition FlushReadings (fuel : nat) (pm : PressureMeter)
    : option (Z * PressureMeter) :=
  r <- flush_loop fuel (readings pm) 0 ;;
  Some (fst r, set_readings pm (snd r)).

(* ================================================================== *)
(** ** Names of the encodings and validity tests (types.go) *)
(* ================================================================== *)

(** [func (dft DataFormatType) String() string] *)
Definition DataFormatType_String (dft : DataFormatType) : string :=
  if dft =? DecimalFormat then "decimal"
  else if dft =? FloatFormat then "float"
  else "unknown".

(** [func (dft DataFormatType) MarshalText() ([]byte, error)]: the error
    is always [nil]. *)
Definition MarshalText (dft : DataFormatType) : string :=
  DataFormatType_String dft.

(** [func (dft *DataFormatType) UnmarshalText(text []byte) error]: the
    value stored through the receiver, or the error. *)
Definition UnmarshalText (text : string) : result DataFormatType :=
  let s := ToLower text in
  if String.eqb s "decimal" || String.eqb s "dec" || String.eqb s "0" then
    Ok DecimalFormat
  else if String.eqb s "float" || String.eqb s "floating" || String.eqb s "1"
  then Ok FloatFormat
  else Err ("unknown data format: " ++ text)%string.

Definition ModbusMinSlaveID : Z := 1.
Definition ModbusMaxSlaveID : Z := 247.

(** [func IsValidSlaveID(slaveID byte) bool] *)
Definition IsValidSlaveID (slaveID : Z) : bool :=
  (ModbusMinSlaveID <=? slaveID) && (slaveID <=? ModbusMaxSlaveID).

(* ================================================================== *)
(** ** Merging configurations (config.go) *)
(* ================================================================== *)

(** [type ConfigSource int] *)
Definition ConfigSource : Type := Z.
Definition SourceDefault : ConfigSource := 0.
Definition SourceFile : ConfigSource := 1.
Definition SourceEnv : ConfigSource := 2.
Definition SourceFlags : ConfigSource := 3.

(** [map[string]ConfigSource] *)
Definition SourceMap : Type := string -> option ConfigSource.

Definition source_empty : SourceMap := fun _ => None.

Definition source_set (m : SourceMap) (key : string) (v : ConfigSource)
    : SourceMap :=
  fun k => if String.eqb k key then Some v else m k.

(** [type ConfigInfo struct] *)
Record ConfigInfo : Type := mkInfo {
  info_Config : Config;
  info_Source : SourceMap
}.

(** [func (cl *ConfigLoader) setDefaults(info *ConfigInfo)]; [windows]
    is what [isWindows()] says. *)
Definition setDefaults (windows : bool) (info : ConfigInfo) : ConfigInfo :=
  let defaultDevice := if windows then "COM1"%string else "/dev/ttyUSB0"%string in
  mkInfo (mkConfig defaultDevice 22 (1 * Second) DecimalFormat)
    (source_set
       (source_set
          (source_set (source_set (info_Source info) "device" SourceDefault)
             "slaveid" SourceDefault)
          "readinterval" SourceDefault)
       "dataformat" SourceDefault).

(** [func (cl *ConfigLoader) mergeConfig(info *ConfigInfo, source *Config,
    sourceType ConfigSource)] *)
Definition mergeConfig (info : ConfigInfo) (source : Config)
    (sourceType : ConfigSource) : ConfigInfo :=
  let info :=
    if negb (String.eqb (cfg_Device source) "") then
      mkInfo (mkConfig (cfg_Device source) (cfg_SlaveID (info_Config info))
                (cfg_ReadInterval (info_Config info))
                (cfg_DataFormat (info_Config info)))
        (source_set (info_Source info) "device" sourceType)
    else info in
  let info :=
    if negb (cfg_SlaveID source =? 0) then
      mkInfo (mkConfig (cfg_Device (info_Config info)) (cfg_SlaveID source)
                (cfg_ReadInterval (info_Config info))
                (cfg_DataFormat (info_Config info)))
        (source_set (info_Source info) "slaveid" sourceType)
    else info in
  let info :=
    if negb (cfg_ReadInterval source =? 0) then
      mkInfo (mkConfig (cfg_Device (info_Config info))
                (cfg_SlaveID (info_Config info)) (cfg_ReadInterval source)
                (cfg_DataFormat (info_Config info)))
        (source_set (info_Source info) "readinterval" sourceType)
    else info in
  mkInfo (mkConfig (cfg_Device (info_Config info))
            (cfg_SlaveID (info_Config info))
            (cfg_ReadInterval (info_Config info)) (cfg_DataFormat source))
    (source_set (info_Source info) "dataformat" sourceType).

(* ================================================================== *)
(** ** Auxiliary definitions of the properties *)
(* ================================================================== *)

(** The values the confidences can take. *)
Definition decimal_base_values : list float64 :=
  [F64.zero; F64.c0_3; F64.c0_5; F64.add F64.c0_5 F64.c0_3].

Definition decimal_values : list float64 :=
  decimal_base_values ++ map (fun b => F64.add b F64.c0_2) decimal_base_values.

Definition float_values : list float64 :=
  let a := [F64.zero; F64.c0_4] in
  let b := a ++ map (fun x => F64.add x F64.c0_3) a in
  b ++ map (fun x => F64.add x F64.c0_3) b.

(** Any decimal confidence and any float confidence are comparable,
    in exactly one way. *)
Definition ordered_pair (d f : float64) : bool :=
  match SFcompare d f with
  | Some Eq => F64.eqb d f && negb (F64.gtb d f) && negb (F64.ltb d f)
  | Some Lt => F64.ltb d f && negb (F64.gtb d f) && negb (F64.eqb d f)
  | Some Gt => F64.gtb d f && negb (F64.ltb d f) && negb (F64.eqb d f)
  | None => false
  end.

(** The queue of a session is the one made by [NewPressureMeter] and
    holds no more than its capacity. *)
Definition within_capacity (pm : PressureMeter) : Prop :=
  Chan.cap (readings pm) = ReadingBufferSize
  /\ (Chan.len (readings pm) <= ReadingBufferSize)%nat.

(** A session as [NewPressureMeter] returns it. *)
Definition fresh (m : MeterConfig) : PressureMeter :=
  mkPM m (Chan.make ReadingBufferSize) false false [].

(** One adapter; on its bus a single meter, at station 1, 9600 baud,
    showing 10.0 Pa. *)
Definition bus_station_1 : World :=
  mkWorld (Ok ["/dev/ttyUSB0"%string])
    (fun port baudRate slaveID =>
       if String.eqb port "/dev/ttyUSB0" && (baudRate =? 9600) && (slaveID =? 1)
       then Answer [x00; x00; x00; x64]
       else ReadFailed "serial: timeout")
    0.

(** Whether a read will be valid, decided from the answer and the
    configured encoding. *)
Definition read_ok (pm : MeterConfig) (answer : result (list byte)) : bool :=
  match answer with
  | Ok results =>
      Nat.eqb (List.length results) 4
      && ((dataFormat pm =? DecimalFormat) || (dataFormat pm =? FloatFormat))
  | Err _ => false
  end.

(** [0 <= x <= 1] *)
Definition unit_interval (x : float64) : bool :=
  F64.leb F64.zero x && F64.leb x (F64.of_int 1).

(** What [ScanDevices] keeps true of its result while it fills it. *)
Definition counts_consistent (config : ScanConfig) (r : ScanResult) : Prop :=
  0 <= Successful r <= TotalTested r
  /\ (SkipUnresponsive config = true ->
      Forall (fun d => Responsive d = true) (Devices r)
      /\ Z.of_nat (List.length (Devices r)) = Successful r)
  /\ (SkipUnresponsive config = false ->
      Z.of_nat (List.length (Devices r)) = TotalTested r
      /\ Z.of_nat (List.length (getResponsiveDevices (Devices r)))
         = Successful r).

(** One port, stations 1 and 2 tried at 9600 baud, only station 2
    answering. *)
Definition bus_station_2 : World :=
  mkWorld (Ok [])
    (fun port baudRate slaveID =>
       if slaveID =? 2 then Answer [x00; x00; x01; x2c]
       else ReadFailed "serial: timeout")
    0.

Definition scan_p1 : ScanConfig :=
  mkScanConfig ["P1"%string] [1; 2] [9600] (1 * Second) 10 true false true.

(** A device [AutoConfigure] may keep: a meter answering as station 0x16
    at 9600 baud on one of the ports scanned. *)
Definition auto_device (w : World) (ports : list string) (d : DeviceInfo)
    : Prop :=
  Responsive d = true
  /\ dev_SlaveID d = 22
  /\ In (Device d) ports
  /\ responsive_candidate w (Device d) 9600 22 = true
  /\ (DataFormat d = DecimalFormat \/ DataFormat d = FloatFormat).

(** Two adapters; the meter, station 0x16, is on the second. *)
Definition bus_station_22 : World :=
  mkWorld (Ok ["/dev/ttyUSB0"%string; "/dev/ttyUSB1"%string])
    (fun port baudRate slaveID =>
       if String.eqb port "/dev/ttyUSB1" && (baudRate =? 9600)
          && (slaveID =? 22)
       then Answer [x00; x00; x00; x64]
       else ConnectFailed "no such device")
    0.

(** The eight adapter name patterns of [isLikelyRS485Port], in lower
    case. *)
Definition rs485_patterns : list string :=
  ["ttyusb"; "ttyacm"; "ttys"; "com"; "cu.usbserial"; "cu.wchusbserial";
   "cu.slab_usbtouart"; "cu.usbmodem"]%string.

(** [scan_p1] without detection of the encoding. *)
Definition scan_p1_plain : ScanConfig :=
  mkScanConfig ["P1"%string] [1; 2] [9600] (1 * Second) 10 false false true.

(** A bus whose meters answer at 19200 baud only. *)
Definition bus_19200 : World :=
  mkWorld (Ok [])
    (fun port baudRate slaveID =>
       if baudRate =? 19200 then Answer [x00; x00; x01; x2c]
       else ReadFailed "serial: timeout")
    0.

Definition scan_rates : ScanConfig :=
  mkScanConfig ["P1"%string] [1; 2] [9600; 19200; 38400; 115200]
    (1 * Second) 10 true false true.

(* ================================================================== *)
(** * Properties *)
(* ================================================================== *)

(** ** Bytes and 32-bit words *)

Lemma u8_range (b : byte) : 0 <= u8 b < 256.
Proof.
  unfold u8. pose proof (Byte.to_N_bounded b). lia.
Qed.

Lemma lor_shiftl_add (a b n : Z) :
  0 <= n -> 0 <= a < 2 ^ n -> Z.lor a (Z.shiftl b n) = a + b * 2 ^ n.
Proof.
  intros Hn Ha.
  rewrite <- Z.add_lor_land, <- Z.shiftl_mul_pow2 by assumption.
  assert (E : Z.land a (Z.shiftl b n) = 0).
  { apply Z.bits_inj'. intros i Hi. rewrite Z.land_spec, Z.bits_0.
    destruct (Z.lt_ge_cases i n) as [L | G].
    - rewrite (Z.shiftl_spec_low b n i L). apply andb_false_r.
    - destruct (Z.eq_dec a 0) as [-> | Na].
      + rewrite Z.bits_0. reflexivity.
      + rewrite (Z.bits_above_log2 a i); [reflexivity | lia |].
        apply Z.log2_lt_pow2; [lia |].
        pose proof (Z.pow_le_mono_r 2 n i); lia. }
  rewrite E. lia.
Qed.

Lemma BigEndian_Uint32_eq (b0 b1 b2 b3 : byte) :
  BigEndian_Uint32 [b0; b1; b2; b3] = Some (bigEndianUint32 b0 b1 b2 b3).
Proof.
  unfold BigEndian_Uint32, bigEndianUint32; cbn [index nth_error bind].
  pose proof (u8_range b0); pose proof (u8_range b1);
  pose proof (u8_range b2); pose proof (u8_range b3).
  f_equal.
  rewrite (lor_shiftl_add (u8 b3) (u8 b2) 8) by lia.
  rewrite (lor_shiftl_add _ (u8 b1) 16) by lia.
  rewrite (lor_shiftl_add _ (u8 b0) 24) by lia.
  lia.
Qed.

Lemma bigEndianUint32_range (b0 b1 b2 b3 : byte) :
  0 <= bigEndianUint32 b0 b1 b2 b3 < 2 ^ 32.
Proof.
  unfold bigEndianUint32.
  pose proof (u8_range b0); pose proof (u8_range b1);
  pose proof (u8_range b2); pose proof (u8_range b3). lia.
Qed.

Lemma int32_of_uint32_eq (u : Z) :
  0 <= u < 2 ^ 32 ->
  int32_of_uint32 u = if u <? 2 ^ 31 then u else u - 2 ^ 32.
Proof.
  intros Hu. unfold int32_of_uint32.
  destruct (Z.ltb_spec u (2 ^ 31)) as [L | G].
  - rewrite Z.mod_small by lia. lia.
  - replace (u + 2 ^ 31) with ((u - 2 ^ 31) + 1 * 2 ^ 32) by lia.
    rewrite Z.mod_add by lia. rewrite Z.mod_small by lia. lia.
Qed.

Lemma land_pow2 (u n : Z) :
  0 <= n -> Z.land u (2 ^ n) = if Z.testbit u n then 2 ^ n else 0.
Proof.
  intros Hn. apply Z.bits_inj'. intros i Hi.
  rewrite Z.land_spec, Z.pow2_bits_eqb by assumption.
  destruct (Z.eqb_spec n i) as [<- | Ne].
  - destruct (Z.testbit u n) eqn:E.
    + rewrite Z.pow2_bits_true by assumption. reflexivity.
    + rewrite Z.bits_0. reflexivity.
  - rewrite andb_false_r. destruct (Z.testbit u n).
    + rewrite Z.pow2_bits_false by assumption. reflexivity.
    + rewrite Z.bits_0. reflexivity.
Qed.

Lemma testbit_31 (u : Z) :
  0 <= u < 2 ^ 32 -> Z.testbit u 31 = (2 ^ 31 <=? u).
Proof.
  intros Hu. destruct (Z.leb_spec (2 ^ 31) u) as [G | L].
  - apply Z.testbit_true; [lia |].
    replace u with ((u - 2 ^ 31) + 1 * 2 ^ 31) by lia.
    rewrite Z.div_add by lia. rewrite Z.div_small by lia. reflexivity.
  - destruct (Z.eq_dec u 0) as [-> | Nz]; [apply Z.bits_0 |].
    apply Z.bits_above_log2; [lia |]. apply Z.log2_lt_pow2; lia.
Qed.

Lemma sign_bit_set_eq (v : Z) :
  - 2 ^ 31 <= v < 2 ^ 31 -> sign_bit_set v = (v <? 0).
Proof.
  intros Hv. unfold sign_bit_set, uint32_of_int32.
  change 2147483648 with (2 ^ 31).
  rewrite land_pow2 by lia.
  assert (R : 0 <= v mod 2 ^ 32 < 2 ^ 32) by (apply Z.mod_pos_bound; lia).
  rewrite (testbit_31 _ R).
  destruct (Z.ltb_spec v 0) as [N | P].
  - replace (v mod 2 ^ 32) with (v + 2 ^ 32).
    + destruct (Z.leb_spec (2 ^ 31) (v + 2 ^ 32)); [reflexivity | lia].
    + symmetry. replace v with ((v + 2 ^ 32) + (-1) * 2 ^ 32) at 1 by lia.
      rewrite Z.mod_add by lia. apply Z.mod_small. lia.
  - rewrite Z.mod_small by lia.
    destruct (Z.leb_spec (2 ^ 31) v); [lia | reflexivity].
Qed.

Lemma bigEndianInt32_range (b0 b1 b2 b3 : byte) :
  - 2 ^ 31 <= bigEndianInt32 b0 b1 b2 b3 < 2 ^ 31.
Proof.
  unfold bigEndianInt32. pose proof (bigEndianUint32_range b0 b1 b2 b3).
  cbv zeta. destruct (Z.ltb_spec (bigEndianUint32 b0 b1 b2 b3) (2 ^ 31)); lia.
Qed.

Lemma int32_of_bigEndian (b0 b1 b2 b3 : byte) :
  int32_of_uint32 (bigEndianUint32 b0 b1 b2 b3) = bigEndianInt32 b0 b1 b2 b3.
Proof. apply int32_of_uint32_eq, bigEndianUint32_range. Qed.

(** ** FrameDecoder *)

Lemma parseDecimalFormat_eq (b0 b1 b2 b3 : byte) :
  parseDecimalFormat [b0; b1; b2; b3]
  = Some (F64.div (F64.of_int (bigEndianInt32 b0 b1 b2 b3)) F64.c10).
Proof.
  unfold parseDecimalFormat. rewrite BigEndian_Uint32_eq.
  cbn [bind index nth_error]. rewrite int32_of_bigEndian.
  destruct (u8 b0 =? 255); [reflexivity |].
  destruct (sign_bit_set _); reflexivity.
Qed.

Lemma parseDecimalFormatStatic_eq (b0 b1 b2 b3 : byte) :
  parseDecimalFormatStatic [b0; b1; b2; b3]
  = Some (F64.div (F64.of_int (bigEndianInt32 b0 b1 b2 b3)) F64.c10).
Proof.
  unfold parseDecimalFormatStatic. rewrite BigEndian_Uint32_eq.
  cbn [bind index nth_error]. rewrite int32_of_bigEndian.
  destruct ((u8 b0 =? 255) || sign_bit_set _); reflexivity.
Qed.

(** 00 00 00 7D is 125, read as 12.5 Pa; FF FF FF 9C is -100, read as
    -10.0 Pa. *)
Example parseDecimalFormat_12_5 :
  exists x, parseDecimalFormat [x00; x00; x00; x7d] = Some x
            /\ (F64.to_Q x == 25 # 2)%Q.
Proof. eexists. split; [reflexivity | vm_compute; reflexivity]. Qed.

Example parseDecimalFormat_minus_10 :
  parseDecimalFormat [xff; xff; xff; x9c] = Some (F64.of_int (-10))
  /\ parseDecimalFormatStatic [xff; xff; xff; x9c] = Some (F64.of_int (-10)).
Proof. split; reflexivity. Qed.

(** C1.  For every 4-byte payload, the meter's [parseDecimalFormat] and
    the scanner's [parseDecimalFormatStatic] both return
    [float64(v) / 10.0], where [v] is the payload read as a big-endian
    32-bit two's-complement integer; the branch on the first byte being
    0xFF and the branch on the sign bit return that same value, the
    sign-bit test says exactly that [v] is negative, and a first byte
    0xFF implies a negative [v]. *)
Theorem parseDecimalFormat_twos_complement (b0 b1 b2 b3 : byte) :
  let data := [b0; b1; b2; b3] in
  let value := bigEndianInt32 b0 b1 b2 b3 in
  parseDecimalFormat data = Some (F64.div (F64.of_int value) F64.c10)
  /\ parseDecimalFormatStatic data = Some (F64.div (F64.of_int value) F64.c10)
  /\ sign_bit_set value = (value <? 0)
  /\ (u8 b0 = 255 -> value < 0).
Proof.
  intros data value. repeat split.
  - apply parseDecimalFormat_eq.
  - apply parseDecimalFormatStatic_eq.
  - apply sign_bit_set_eq, bigEndianInt32_range.
  - intros H0. unfold value, bigEndianInt32, bigEndianUint32. cbv zeta.
    pose proof (u8_range b1); pose proof (u8_range b2);
    pose proof (u8_range b3). rewrite H0.
    match goal with |- context [?a <? ?b] => destruct (Z.ltb_spec a b) end; lia.
Qed.


Lemma ieeeBytes_eq (b0 b1 b2 b3 : byte) :
  ieeeBytes [b0; b1; b2; b3] = Some [b2; b3; b0; b1].
Proof. reflexivity. Qed.

Lemma parseFloatFormat_eq (b0 b1 b2 b3 : byte) :
  parseFloatFormat [b0; b1; b2; b3]
  = Some (Float32frombits (bigEndianUint32 b2 b3 b0 b1)).
Proof.
  unfold parseFloatFormat. rewrite ieeeBytes_eq. cbn [bind].
  rewrite BigEndian_Uint32_eq. reflexivity.
Qed.

Lemma parseFloatFormatStatic_eq (b0 b1 b2 b3 : byte) :
  parseFloatFormatStatic [b0; b1; b2; b3]
  = let f := Float32frombits (bigEndianUint32 b2 b3 b0 b1) in
    Some (if F64.IsNaN f || F64.IsInf f then F64.zero else f).
Proof.
  unfold parseFloatFormatStatic. rewrite ieeeBytes_eq. cbn [bind].
  rewrite BigEndian_Uint32_eq. cbn [bind]. cbv zeta.
  destruct (F64.IsNaN _ || F64.IsInf _); reflexivity.
Qed.

(** Bit patterns of binary32 and what they decode to. *)
Example Float32frombits_one : Float32frombits 1065353216 = F64.of_int 1.
Proof. reflexivity. Qed.

Example Float32frombits_inf : Float32frombits 2139095040 = S754_infinity false.
Proof. reflexivity. Qed.

Example Float32frombits_neg_zero : Float32frombits 2147483648 = S754_zero true.
Proof. reflexivity. Qed.

Example Float32frombits_nan : Float32frombits 2143289344 = S754_nan.
Proof. reflexivity. Qed.

(** 0x3DCCCCCD, the binary32 number nearest to 0.1 *)
Example Float32frombits_tenth :
  F64.to_Q (Float32frombits 1036831949) == 13421773 # 134217728.
Proof. vm_compute. reflexivity. Qed.

(** the smallest subnormal, 2^-149 *)
Example Float32frombits_subnormal :
  Float32frombits 1 = S754_finite false 4503599627370496 (-201).
Proof. reflexivity. Qed.

(** C2, counterexample.  The payload 00 00 7F 80 is word-swapped to the
    bit pattern 0x7F800000, plus infinity.  The meter's decoder returns
    it; the scanner's static decoder returns 0 instead. *)
Lemma parseFloatFormatStatic_replaces_infinity :
  Float32frombits (bigEndianUint32 x7f x80 x00 x00) = S754_infinity false
  /\ parseFloatFormat [x00; x00; x7f; x80] = Some (S754_infinity false)
  /\ parseFloatFormatStatic [x00; x00; x7f; x80] = Some F64.zero
  /\ parseFloatFormatStatic [x00; x00; x7f; x80]
     <> Some (Float32frombits (bigEndianUint32 x7f x80 x00 x00)).
Proof.
  repeat split; try reflexivity. vm_compute. discriminate.
Qed.

(** C2, as amended.  For every 4-byte payload, the meter's
    [parseFloatFormat] returns
    [float32frombits(bigEndianUint32(payload[2], payload[3], payload[0], payload[1]))]
    widened to [float64], NaN and infinities included; the scanner's
    [parseFloatFormatStatic] returns the same value when it is finite
    and 0 when it is NaN or infinite. *)
Theorem parseFloatFormat_word_swapped (b0 b1 b2 b3 : byte) :
  let data := [b0; b1; b2; b3] in
  let f := Float32frombits (bigEndianUint32 b2 b3 b0 b1) in
  parseFloatFormat data = Some f
  /\ parseFloatFormatStatic data
     = Some (if F64.IsNaN f || F64.IsInf f then F64.zero else f)
  /\ (F64.IsNaN f || F64.IsInf f = false -> parseFloatFormatStatic data = Some f).
Proof.
  intros data f. unfold data.
  rewrite parseFloatFormat_eq, parseFloatFormatStatic_eq. fold f. cbv zeta.
  repeat split. intros ->. reflexivity.
Qed.

(** C3, counterexample.  On the payload 00 00 7F 80, whose word-swapped
    reading is plus infinity, [ReadPressure] under [FloatFormat] returns
    a reading with [Valid = true] and an infinite pressure. *)
Lemma ReadPressure_float_infinite_is_valid :
  let data := [x00; x00; x7f; x80] in
  F64.IsInf (Float32frombits (bigEndianUint32 x7f x80 x00 x00)) = true
  /\ exists r,
       ReadPressure (mkMeter 22 FloatFormat) 0 (Ok data) = Some r
       /\ Valid r = true
       /\ Pressure r = S754_infinity false.
Proof.
  split; [reflexivity |]. eexists. repeat split.
Qed.

(** C3, as amended.  For every 4-byte payload whose word-swapped
    IEEE-754 reading is NaN or infinite, [ReadPressure] under
    [FloatFormat] returns a reading with [Valid = true], no error text
    and that non-finite value as its pressure; the scanner's static
    decoder returns 0 for the same payload.  Neither reports the
    payload as invalid. *)
Theorem ReadPressure_float_always_valid
    (sid : Z) (now : Time) (b0 b1 b2 b3 : byte) :
  let data := [b0; b1; b2; b3] in
  let f := Float32frombits (bigEndianUint32 b2 b3 b0 b1) in
  F64.IsNaN f || F64.IsInf f = true ->
  ReadPressure (mkMeter sid FloatFormat) now (Ok data)
    = Some (mkReading now f sid data true "")
  /\ parseFloatFormatStatic data = Some F64.zero.
Proof.
  intros data f H. split.
  - unfold ReadPressure, data. cbn [List.length Nat.eqb negb dataFormat slaveID].
    change (FloatFormat =? DecimalFormat) with false.
    change (FloatFormat =? FloatFormat) with true. cbv iota.
    rewrite parseFloatFormat_eq. reflexivity.
  - unfold data. rewrite parseFloatFormatStatic_eq. cbv zeta. fold f.
    rewrite H. reflexivity.
Qed.

Lemma ReadPressure_float_always_valid_witness :
  ReadPressure (mkMeter 22 FloatFormat) 5 (Ok [x00; x00; x7f; xc0])
    = Some (mkReading 5 S754_nan 22 [x00; x00; x7f; xc0] true "")
  /\ parseFloatFormatStatic [x00; x00; x7f; xc0] = Some F64.zero.
Proof.
  apply (ReadPressure_float_always_valid 22 5 x00 x00 x7f xc0). reflexivity.
Defined.

(** ** FormatClassifier *)

Lemma Some_eq {A : Type} (x y : A) : Some x = Some y -> x = y.
Proof. intros H. injection H. auto. Qed.

Lemma decimalValueConfidence_values (value : float64) :
  In (decimalValueConfidence value) decimal_base_values.
Proof.
  unfold decimalValueConfidence, decimal_base_values.
  destruct (in_pressure_range value), (F64.eqb value (one_decimal value));
    cbn; auto.
Qed.

Lemma looksDecimal_eq (d0 : byte) : looksDecimal d0 = (u8 d0 <? 128).
Proof.
  unfold looksDecimal.
  destruct (Z.eqb_spec (u8 d0) 255) as [E | N]; cbn.
  - rewrite E. reflexivity.
  - apply orb_false_r.
Qed.

(** What the condition on the first raw byte amounts to: the decimal
    confidence is the confidence gathered from the value plus 0.2
    exactly when the first raw byte is below 0x80, and that confidence
    alone otherwise (a first byte 0xFF included); the 0.2 is always
    visible in the sum. *)
Theorem decimal_confidence_first_byte
    (value : float64) (d0 : byte) (rest : list byte) :
  let base := decimalValueConfidence value in
  calculateDecimalConfidence value (d0 :: rest)
    = Some (if u8 d0 <? 128 then F64.add base F64.c0_2 else base)
  /\ F64.eqb (F64.add base F64.c0_2) base = false.
Proof.
  intros base. split.
  - unfold calculateDecimalConfidence. cbn [index nth_error bind].
    rewrite looksDecimal_eq. reflexivity.
  - pose proof (decimalValueConfidence_values value) as H. fold base in H.
    unfold decimal_base_values in H. cbn [In] in H.
    destruct H as [<- | [<- | [<- | [<- | []]]]]; reflexivity.
Qed.

(** C5, the code at the failing input.  On the payload FF FF FF FF,
    which decodes to -0.1 Pa, the first byte is 0xFF, the negative
    marker the condition of the source names in its second disjunct;
    the leading [data[0] != 0xFF] makes that disjunct dead, and the
    decimal confidence is the one gathered from the value, without the
    0.2 term. *)
Lemma decimal_confidence_ff_not_awarded :
  let data := [xff; xff; xff; xff] in
  u8 xff = 255
  /\ exists value,
       parseDecimalFormatStatic data = Some value
       /\ calculateDecimalConfidence value data
          = Some (decimalValueConfidence value)
       /\ calculateDecimalConfidence value data
          <> Some (F64.add (decimalValueConfidence value) F64.c0_2).
Proof.
  split; [reflexivity |]. eexists. split; [reflexivity |].
  split; [reflexivity |]. vm_compute. discriminate.
Qed.

Lemma calculateDecimalConfidence_values value data d :
  calculateDecimalConfidence value data = Some d -> In d decimal_values.
Proof.
  unfold calculateDecimalConfidence.
  destruct (index data 0) as [d0 |]; [| discriminate]. cbn [bind].
  intros E. apply Some_eq in E. subst d. pose proof (decimalValueConfidence_values value) as H.
  unfold decimal_values. apply in_or_app.
  destruct (looksDecimal d0); [right | left; exact H].
  apply (in_map (fun b => F64.add b F64.c0_2)). exact H.
Qed.

Lemma calculateFloatConfidence_values value data f :
  calculateFloatConfidence value data = Some f -> In f float_values.
Proof.
  unfold calculateFloatConfidence.
  destruct (ieeeBytes data) as [ieee |]; [| discriminate]. cbn [bind].
  destruct (BigEndian_Uint32 ieee) as [bits |]; [| discriminate]. cbn [bind].
  intros E. apply Some_eq in E. subst f.
  destruct (in_pressure_range value && negb (F64.IsNaN value)
            && negb (F64.IsInf value)),
    (F64.neqb value (one_decimal value)),
    ((0 <? Z.land (Z.shiftr bits 23) 255) && (Z.land (Z.shiftr bits 23) 255 <? 255));
    vm_compute; tauto.
Qed.

Lemma confidences_ordered :
  forallb (fun d => forallb (ordered_pair d) float_values) decimal_values = true.
Proof. vm_compute. reflexivity. Qed.

Lemma ordered_pair_of_values d f :
  In d decimal_values -> In f float_values -> ordered_pair d f = true.
Proof.
  intros Hd Hf. pose proof confidences_ordered as H.
  rewrite forallb_forall in H. specialize (H d Hd).
  rewrite forallb_forall in H. exact (H f Hf).
Qed.

Lemma confidences_some (b0 b1 b2 b3 : byte) :
  exists dc fc, confidences [b0; b1; b2; b3] = Some (dc, fc).
Proof.
  unfold confidences.
  rewrite parseDecimalFormatStatic_eq.
  rewrite parseFloatFormatStatic_eq. cbv zeta. cbn [bind].
  unfold calculateDecimalConfidence. cbn [index nth_error bind].
  unfold calculateFloatConfidence. rewrite ieeeBytes_eq. cbn [bind].
  rewrite BigEndian_Uint32_eq. cbn [bind]. eauto.
Qed.

Lemma confidences_values data dc fc :
  confidences data = Some (dc, fc) ->
  In dc decimal_values /\ In fc float_values.
Proof.
  unfold confidences.
  destruct (parseDecimalFormatStatic data) as [dv |]; [| discriminate].
  destruct (parseFloatFormatStatic data) as [fv |]; [| discriminate].
  cbn [bind].
  destruct (calculateDecimalConfidence dv data) as [d |] eqn:Ed;
    [| discriminate].
  destruct (calculateFloatConfidence fv data) as [f |] eqn:Ef;
    [| discriminate].
  cbn [bind]. intros [= <- <-]. split.
  - eapply calculateDecimalConfidence_values; eauto.
  - eapply calculateFloatConfidence_values; eauto.
Qed.

Lemma detectDataFormat_confidences data dc fc :
  confidences data = Some (dc, fc) ->
  detectDataFormat data
  = Some (if F64.gtb dc fc then (DecimalFormat, dc) else (FloatFormat, fc)).
Proof.
  unfold confidences, detectDataFormat.
  destruct (parseDecimalFormatStatic data) as [dv |]; [| discriminate].
  destruct (parseFloatFormatStatic data) as [fv |]; [| discriminate].
  cbn [bind].
  destruct (calculateDecimalConfidence dv data) as [d |]; [| discriminate].
  destruct (calculateFloatConfidence fv data) as [f |]; [| discriminate].
  cbn [bind]. intros [= <- <-]. destruct (F64.gtb d f); reflexivity.
Qed.

(** C4, as amended.  For every 4-byte payload, with [dc] and [fc] the
    decimal and float confidences of the classifier: if they are equal
    [detectDataFormat] returns the Float encoding, if [dc] is higher the
    Decimal encoding, if [fc] is higher the Float encoding, each with
    its own confidence; one of the three is always the case. *)
Theorem detectDataFormat_ties_favor_float
    (b0 b1 b2 b3 : byte) (dc fc : float64) :
  let data := [b0; b1; b2; b3] in
  confidences data = Some (dc, fc) ->
  (F64.eqb dc fc = true -> detectDataFormat data = Some (FloatFormat, fc))
  /\ (F64.gtb dc fc = true -> detectDataFormat data = Some (DecimalFormat, dc))
  /\ (F64.ltb dc fc = true -> detectDataFormat data = Some (FloatFormat, fc))
  /\ (F64.eqb dc fc = true \/ F64.gtb dc fc = true \/ F64.ltb dc fc = true).
Proof.
  intros data H.
  rewrite (detectDataFormat_confidences data dc fc H).
  destruct (confidences_values data dc fc H) as [Hd Hf].
  pose proof (ordered_pair_of_values dc fc Hd Hf) as O.
  unfold ordered_pair in O.
  destruct (SFcompare dc fc) as [[ | | ] |]; try discriminate;
    apply andb_prop in O; destruct O as [O O3];
    apply andb_prop in O; destruct O as [O1 O2];
    apply negb_true_iff in O2; apply negb_true_iff in O3;
    rewrite ?O1, ?O2, ?O3; repeat split; try discriminate; auto.
Qed.

(** C4, counterexample.  On the payload 00 00 3F 8C both confidences are
    1.0 (decimal 1626.8, float 1.09375) and the classifier returns the
    Float encoding. *)
Lemma detectDataFormat_tie_returns_float :
  let data := [x00; x00; x3f; x8c] in
  confidences data = Some (F64.of_int 1, F64.of_int 1)
  /\ F64.eqb (F64.of_int 1) (F64.of_int 1) = true
  /\ detectDataFormat data = Some (FloatFormat, F64.of_int 1)
  /\ FloatFormat <> DecimalFormat.
Proof.
  repeat split; try (vm_compute; reflexivity). discriminate.
Qed.

Lemma detectDataFormat_ties_favor_float_witness :
  detectDataFormat [x00; x00; x3f; x8c] = Some (FloatFormat, F64.of_int 1).
Proof.
  apply (proj1 (detectDataFormat_ties_favor_float x00 x00 x3f x8c
                  (F64.of_int 1) (F64.of_int 1) eq_refl)).
  reflexivity.
Defined.

(** ** PollingLoop: the reading queue *)

Section Delivery.
Context {A : Type}.
Implicit Types (c : Chan.chan A) (r : A).

Lemma send_room c r :
  (Chan.len c < Chan.cap c)%nat ->
  Chan.send c r = Some (Chan.mk (Chan.buf c ++ [r]) (Chan.cap c)).
Proof.
  intros H. unfold Chan.send.
  destruct (Nat.ltb_spec (Chan.len c) (Chan.cap c)); [reflexivity | lia].
Qed.

Lemma send_full c r :
  (Chan.cap c <= Chan.len c)%nat -> Chan.send c r = None.
Proof.
  intros H. unfold Chan.send.
  destruct (Nat.ltb_spec (Chan.len c) (Chan.cap c)); [lia | reflexivity].
Qed.

Lemma drain_cap k c : Chan.cap (Chan.drain k c) = Chan.cap c.
Proof.
  revert c. induction k as [| k IH]; intros c; cbn; [reflexivity |].
  unfold Chan.recv. destruct (Chan.buf c) as [| x rest]; [reflexivity |].
  rewrite IH. reflexivity.
Qed.

Lemma drain_len k c : (Chan.len (Chan.drain k c) <= Chan.len c)%nat.
Proof.
  revert c. induction k as [| k IH]; intros c; cbn; [lia |].
  unfold Chan.recv. destruct (Chan.buf c) as [| x rest] eqn:E; [lia |].
  specialize (IH (Chan.mk rest (Chan.cap c))).
  unfold Chan.len in *. rewrite E. cbn in *. lia.
Qed.

Lemma deliver_room c r :
  (Chan.len c < Chan.cap c)%nat ->
  deliver c r = Some (Chan.mk (Chan.buf c ++ [r]) (Chan.cap c)).
Proof. intros H. unfold deliver. rewrite send_room by assumption. reflexivity. Qed.

Lemma deliver_full c r :
  (0 < Chan.cap c)%nat -> Chan.len c = Chan.cap c ->
  deliver c r = Some (Chan.mk (tl (Chan.buf c) ++ [r]) (Chan.cap c)).
Proof.
  intros Hc Hl. unfold deliver. rewrite send_full by lia.
  unfold Chan.recv. unfold Chan.len in Hl.
  destruct (Chan.buf c) as [| x rest] eqn:E; cbn in Hl; [lia |].
  rewrite send_room by (unfold Chan.len; cbn; lia). reflexivity.
Qed.

(** X5.  Consumers running between the steps of a delivery change
    nothing to that: on a queue of capacity at least 1 that is within
    its capacity the producer is not blocked, the capacity is kept, the
    queue stays within it and the newest reading is the last of the
    queue. *)
Lemma deliver_interleaved_never_blocks k1 k2 c r :
  (0 < Chan.cap c)%nat ->
  (Chan.len c <= Chan.cap c)%nat ->
  exists c',
    deliver_interleaved k1 k2 c r = Some c'
    /\ Chan.cap c' = Chan.cap c
    /\ (Chan.len c' <= Chan.cap c')%nat
    /\ (exists q, Chan.buf c' = q ++ [r]).
Proof.
  intros Hc Hl. unfold deliver_interleaved.
  destruct (Nat.lt_ge_cases (Chan.len c) (Chan.cap c)) as [L | G].
  - rewrite send_room by assumption. eexists. split; [reflexivity |].
    cbn. split; [reflexivity |].
    split; [unfold Chan.len in *; cbn; rewrite length_app; cbn; lia |].
    eauto.
  - rewrite send_full by assumption.
    set (c1 := Chan.drain k1 c).
    set (c2 := match Chan.recv c1 with Some (_, c0) => c0 | None => c1 end).
    assert (C1 : Chan.cap c1 = Chan.cap c) by apply drain_cap.
    assert (L1 : (Chan.len c1 <= Chan.len c)%nat) by apply drain_len.
    assert (C2 : Chan.cap c2 = Chan.cap c /\ (Chan.len c2 < Chan.cap c)%nat).
    { unfold c2, Chan.recv. unfold Chan.len in *.
      destruct (Chan.buf c1) as [| x rest] eqn:E; cbn in *.
      - rewrite E. cbn. lia.
      - split; [assumption | lia]. }
    destruct C2 as [C2 L2].
    pose proof (drain_cap k2 c2) as C3. pose proof (drain_len k2 c2) as L3.
    rewrite send_room by lia. eexists. split; [reflexivity |]. cbn.
    split; [congruence |].
    split; [unfold Chan.len in *; rewrite length_app; cbn; lia |].
    eauto.
Qed.
End Delivery.

(** A delivery keeps a queue within its capacity. *)
Lemma deliver_within {A : Type} (c c' : Chan.chan A) (r : A) :
  (Chan.len c <= Chan.cap c)%nat ->
  deliver c r = Some c' ->
  Chan.cap c' = Chan.cap c /\ (Chan.len c' <= Chan.cap c')%nat.
Proof.
  intros Hl H.
  destruct (Nat.lt_ge_cases (Chan.len c) (Chan.cap c)) as [L | G].
  - rewrite deliver_room in H by assumption. apply Some_eq in H. subst c'.
    unfold Chan.len in *. cbn. rewrite length_app. cbn. lia.
  - destruct (Nat.eq_dec (Chan.cap c) 0) as [Z0 | NZ].
    + unfold deliver in H. rewrite send_full in H by assumption.
      unfold Chan.recv in H. unfold Chan.len in *.
      destruct (Chan.buf c) as [| x rest] eqn:E; cbn in Hl.
      * rewrite send_full in H by (unfold Chan.len; rewrite E; cbn; lia).
        discriminate.
      * lia.
    + rewrite deliver_full in H by lia. apply Some_eq in H. subst c'.
      unfold Chan.len in *. cbn. rewrite length_app. cbn.
      destruct (Chan.buf c); cbn in *; lia.
Qed.

(** C6.  The delivery step of the polling loop, on a queue of capacity
    at least 1 (the session's is 100) that is within its capacity:
    the step does not block, leaves the capacity unchanged and the queue
    within it, and puts the newest reading last; a queue with room just
    receives the reading, a full queue loses exactly its oldest reading
    first.  Hence, with capacity 2, delivering three readings leaves
    the second and the third, in that order. *)
Theorem deliver_overwrites_oldest {A : Type} (c : Chan.chan A) (r : A) :
  (0 < Chan.cap c)%nat ->
  (Chan.len c <= Chan.cap c)%nat ->
  exists c',
    deliver c r = Some c'
    /\ Chan.cap c' = Chan.cap c
    /\ (Chan.len c' <= Chan.cap c')%nat
    /\ (exists q, Chan.buf c' = q ++ [r])
    /\ ((Chan.len c < Chan.cap c)%nat -> Chan.buf c' = Chan.buf c ++ [r])
    /\ (Chan.len c = Chan.cap c -> Chan.buf c' = tl (Chan.buf c) ++ [r])
    /\ (forall r1 r2 r3 : A,
          deliver_all (Chan.make 2) [r1; r2; r3]
          = Some (Chan.mk [r2; r3] 2)).
Proof.
  intros Hc Hl.
  destruct (Nat.lt_ge_cases (Chan.len c) (Chan.cap c)) as [L | G].
  - exists (Chan.mk (Chan.buf c ++ [r]) (Chan.cap c)).
    split; [apply deliver_room; assumption |].
    split; [reflexivity |].
    split; [unfold Chan.len in *; cbn; rewrite length_app; cbn; lia |].
    split; [cbn; eauto |].
    split; [reflexivity |].
    split; [lia | reflexivity].
  - assert (E : Chan.len c = Chan.cap c) by lia.
    exists (Chan.mk (tl (Chan.buf c) ++ [r]) (Chan.cap c)).
    split; [apply deliver_full; assumption |].
    split; [reflexivity |].
    split.
    { unfold Chan.len in *; cbn. rewrite length_app. cbn.
      destruct (Chan.buf c); cbn in *; lia. }
    split; [cbn; eauto |].
    split; [lia |].
    split; reflexivity.
Qed.

Lemma deliver_overwrites_oldest_witness :
  exists c',
    deliver (Chan.mk [1; 2] 2) 3 = Some c'
    /\ Chan.cap c' = 2%nat
    /\ (Chan.len c' <= Chan.cap c')%nat
    /\ (exists q, Chan.buf c' = q ++ [3])
    /\ ((2 < 2)%nat -> Chan.buf c' = [1; 2] ++ [3])
    /\ (2%nat = 2%nat -> Chan.buf c' = [2] ++ [3])
    /\ (forall r1 r2 r3 : Z,
          deliver_all (Chan.make 2) [r1; r2; r3] = Some (Chan.mk [r2; r3] 2)).
Proof.
  apply (deliver_overwrites_oldest (Chan.mk [1; 2] 2) 3); cbn; lia.
Defined.

(** ** PollingLoop: the session *)

Lemma ReadPressure_total pm now answer :
  exists r, ReadPressure pm now answer = Some r.
Proof.
  unfold ReadPressure. destruct answer as [results | err]; [| eauto].
  destruct (Nat.eqb_spec (List.length results) 4) as [E | N]; cbn [negb];
    [| eauto].
  destruct results as [| b0 [| b1 [| b2 [| b3 [| ? ?]]]]]; try discriminate.
  destruct (dataFormat pm =? DecimalFormat).
  - rewrite parseDecimalFormat_eq. cbn [bind]. eauto.
  - destruct (dataFormat pm =? FloatFormat); [| eauto].
    rewrite parseFloatFormat_eq. cbn [bind]. eauto.
Qed.

Lemma closed_stays_closed pm ev pm' :
  stopCh_closed pm = true -> step pm ev = Some pm' -> stopCh_closed pm' = true.
Proof.
  intros H. destruct ev as [interval | | i | i p now answer | k]; cbn.
  - destruct (running pm); [intros E; apply Some_eq in E; subst; assumption |].
    destruct (interval <=? 0); [discriminate |].
    intros E; apply Some_eq in E; subst; assumption.
  - destruct (running pm); cbn; [rewrite H; discriminate |].
    intros E; apply Some_eq in E; subst; assumption.
  - destruct (nth_error (loops pm) i) as [[t |] |];
      intros E; apply Some_eq in E; subst; assumption.
  - unfold select_once.
    destruct (nth_error (loops pm) i) as [[t |] |];
      try (intros E; apply Some_eq in E; subst; assumption).
    rewrite H. cbn.
    destruct (if t then p else true).
    + intros E; apply Some_eq in E; subst; assumption.
    + destruct (ReadPressure (pm_meter pm) now answer) as [r |]; [| discriminate].
      cbn [bind]. destruct (deliver (readings pm) r); [| discriminate].
      cbn [bind]. intros E; apply Some_eq in E; subst; assumption.
  - intros E; apply Some_eq in E; subst; assumption.
Qed.

(** The sessions [NewPressureMeter] returns are the [fresh] ones. *)
Lemma NewPressureMeter_fresh (config : Config) :
  1 <= cfg_SlaveID config <= 247 ->
  NewPressureMeter config (Ok tt)
  = Ok (fresh (mkMeter (cfg_SlaveID config) (cfg_DataFormat config))).
Proof.
  intros S. unfold NewPressureMeter.
  destruct (Z.ltb_spec (cfg_SlaveID config) 1); cbn [orb]; [lia |].
  destruct (Z.ltb_spec 247 (cfg_SlaveID config)); [lia |].
  destruct (cfg_ReadInterval config =? 0); reflexivity.
Qed.

(** No event lets the queue of a session grow beyond its capacity. *)
Lemma step_keeps_capacity pm ev pm' :
  within_capacity pm -> step pm ev = Some pm' -> within_capacity pm'.
Proof.
  unfold within_capacity. intros [Hc Hl].
  destruct ev as [interval | | i | i p now answer | k]; cbn.
  - destruct (running pm); [intros E; apply Some_eq in E; subst; auto |].
    destruct (interval <=? 0); [discriminate |].
    intros E; apply Some_eq in E; subst; auto.
  - destruct (running pm); cbn.
    + destruct (stopCh_closed pm); [discriminate |].
      intros E; apply Some_eq in E; subst; auto.
    + intros E; apply Some_eq in E; subst; auto.
  - destruct (nth_error (loops pm) i) as [[t |] |];
      intros E; apply Some_eq in E; subst; auto.
  - unfold select_once.
    destruct (nth_error (loops pm) i) as [[t |] |];
      try (intros E; apply Some_eq in E; subst; auto; fail).
    destruct (negb (stopCh_closed pm) && negb t);
      [intros E; apply Some_eq in E; subst; auto |].
    destruct (if stopCh_closed pm && t then p else stopCh_closed pm).
    + intros E; apply Some_eq in E; subst; auto.
    + destruct (ReadPressure (pm_meter pm) now answer) as [r |]; [| discriminate].
      cbn [bind]. destruct (deliver (readings pm) r) as [c' |] eqn:D;
        [| discriminate].
      cbn [bind]. intros E; apply Some_eq in E; subst. cbn.
      destruct (deliver_within (readings pm) c' r) as [C L]; [lia | exact D |].
      split; [congruence | lia].
  - intros E; apply Some_eq in E; subst. cbn.
    rewrite drain_cap. split; [assumption |].
    pose proof (drain_len k (readings pm)). lia.
Qed.

Lemma run_keeps_capacity evs : forall pm pm',
  within_capacity pm -> run pm evs = Some pm' -> within_capacity pm'.
Proof.
  induction evs as [| ev rest IH]; intros pm pm' W; cbn.
  - intros E; apply Some_eq in E; subst; assumption.
  - destruct (step pm ev) as [pm1 |] eqn:S; [| discriminate]. cbn [bind].
    apply IH. eapply step_keeps_capacity; eauto.
Qed.

Lemma session_queue_bounded m evs pm' :
  run (fresh m) evs = Some pm' ->
  (Chan.len (readings pm') <= ReadingBufferSize)%nat.
Proof.
  intros H. apply (run_keeps_capacity evs (fresh m) pm'); [| assumption].
  split; cbn; [reflexivity | lia].
Qed.

(** While the stop channel is open, a started loop turns every tick
    into one reading at the end of the queue. *)
Lemma first_start_polls m pick now answer :
  exists r,
    ReadPressure m now answer = Some r
    /\ run (fresh m) [EvStart Second; EvTick 0; EvSelect 0 pick now answer]
       = Some (mkPM m (Chan.mk [r] ReadingBufferSize) false true [Polling false]).
Proof.
  destruct (ReadPressure_total m now answer) as [r Hr]. exists r.
  split; [assumption |].
  cbn. unfold select_once. cbn. rewrite Hr. reflexivity.
Qed.

(** C8, the code at the failing input.  A session is started, stopped
    and started again.  The second goroutine finds the stop channel,
    closed by the first [Stop] and never made anew, ready at its first
    [select] and returns: the session says it is running, a tick follows
    and no reading is read or delivered, whatever the run time would
    pick and whatever the device would answer.  A second [Stop] closes
    the closed channel, a panic. *)
Theorem restart_polls_nothing
    (m : MeterConfig) (p1 p2 p3 : bool) (t1 t2 t3 : Time)
    (a1 a2 a3 : result (list byte)) :
  run (fresh m)
    [EvStart Second; EvStop; EvSelect 0 p1 t1 a1;
     EvStart Second; EvSelect 1 p2 t2 a2; EvTick 1; EvSelect 1 p3 t3 a3]
  = Some (mkPM m (Chan.make ReadingBufferSize) true true [Returned; Returned])
  /\ run (fresh m) [EvStart Second; EvStop; EvStart Second; EvStop] = None.
Proof. split; reflexivity. Qed.


(** ** Session construction *)

(** C10, counterexample.  With a valid station and a read interval of
    50ms, below the minimum of 100ms, [NewPressureMeter] returns a
    session. *)
Lemma NewPressureMeter_accepts_short_interval :
  let config := mkConfig "/dev/ttyUSB0" 22 (50 * Millisecond) DecimalFormat in
  cfg_ReadInterval config < 100 * Millisecond
  /\ NewPressureMeter config (Ok tt)
     = Ok (mkPM (mkMeter 22 DecimalFormat) (Chan.make ReadingBufferSize)
             false false []).
Proof. split; reflexivity. Qed.

(** C10, as amended.  A configuration whose station lies outside
    1..247 or whose read interval is below 100ms is rejected by the
    configuration loader's [validateConfig]; [NewPressureMeter] returns
    an error, and no session, for every station outside 1..247, and
    does not look at the interval: for a station within 1..247 its
    outcome is that of the connection alone. *)
Theorem NewPressureMeter_validates_station
    (config : Config) (connect : result unit) :
  cfg_SlaveID config < 1 \/ 247 < cfg_SlaveID config
  \/ cfg_ReadInterval config < 100 * Millisecond ->
  validateConfig config <> None
  /\ (cfg_SlaveID config < 1 \/ 247 < cfg_SlaveID config ->
      exists msg, NewPressureMeter config connect = Err msg)
  /\ (1 <= cfg_SlaveID config <= 247 ->
      NewPressureMeter config connect
      = match connect with
        | Ok _ =>
            Ok (mkPM (mkMeter (cfg_SlaveID config) (cfg_DataFormat config))
                  (Chan.make ReadingBufferSize) false false [])
        | Err err =>
            Err ("failed to connect to device " ++ cfg_Device config
                   ++ ": " ++ err)%string
        end).
Proof.
  intros H. split; [| split].
  - unfold validateConfig.
    destruct (String.eqb (cfg_Device config) ""); [discriminate |].
    destruct (Z.ltb_spec (cfg_SlaveID config) 1); cbn [orb]; [discriminate |].
    destruct (Z.ltb_spec 247 (cfg_SlaveID config)); [discriminate |].
    destruct (Z.ltb_spec (cfg_ReadInterval config) (100 * Millisecond));
      [discriminate | lia].
  - intros S. unfold NewPressureMeter.
    destruct (Z.ltb_spec (cfg_SlaveID config) 1); cbn [orb]; [eauto |].
    destruct (Z.ltb_spec 247 (cfg_SlaveID config)); [eauto | lia].
  - intros S. unfold NewPressureMeter.
    destruct (Z.ltb_spec (cfg_SlaveID config) 1); cbn [orb]; [lia |].
    destruct (Z.ltb_spec 247 (cfg_SlaveID config)); [lia |].
    destruct (cfg_ReadInterval config =? 0); destruct connect; reflexivity.
Qed.

Lemma NewPressureMeter_validates_station_witness :
  validateConfig (mkConfig "COM1" 0 Second DecimalFormat) <> None
  /\ (exists msg,
        NewPressureMeter (mkConfig "COM1" 0 Second DecimalFormat) (Ok tt)
        = Err msg).
Proof.
  destruct (NewPressureMeter_validates_station
              (mkConfig "COM1" 0 Second DecimalFormat) (Ok tt)) as (V & E & _).
  - left. reflexivity.
  - split; [exact V |]. apply E. left. reflexivity.
Defined.

(** ** RunningStatistics *)

(** After 10, 20, 30: count 3, min 10, max 30, mean 20, and 100 in the
    variance accumulator, the square of the sample deviation 10. *)
Lemma feed_10_20_30 (now : Time) :
  feed Statistics_zero (map F64.of_int [10; 20; 30]) now
  = mkStats 3 (F64.of_int 10) (F64.of_int 30) (F64.of_int 20)
      (F64.of_int 100) now.
Proof. reflexivity. Qed.

(** C7, the code at the failing input.  After 10, 20, 30, 40 the
    accumulator holds 400/3 (about 133.3), while the sample variance of
    the four values is 500/3 (about 166.7): [Update] divides the
    accumulator by [n - 1] at every call and adds the next term to the
    quotient. *)
Theorem Update_variance_differs_from_sample_variance (now : Time) :
  let xs := [10; 20; 30; 40] in
  let s := feed Statistics_zero (map F64.of_int xs) now in
  Count s = 4
  /\ Min s = F64.of_int 10 /\ Max s = F64.of_int 40 /\ Mean s = F64.of_int 25
  /\ StdDev s = F64.lit 400 3
  /\ (sample_variance (map inject_Z xs) == 500 # 3)%Q
  /\ (F64.to_Q (StdDev s) < 134)%Q
  /\ (166 < sample_variance (map inject_Z xs))%Q.
Proof.
  repeat split; vm_compute; reflexivity.
Qed.

(** ** DiscoveryEngine *)
(** The filter on port names, and its fall-back. *)
Example isLikelyRS485Port_usb : isLikelyRS485Port "/dev/ttyUSB0" = true.
Proof. reflexivity. Qed.

Example isLikelyRS485Port_com : isLikelyRS485Port "COM3" = true.
Proof. reflexivity. Qed.

Example isLikelyRS485Port_bluetooth :
  isLikelyRS485Port "/dev/cu.Bluetooth-Modem" = false.
Proof. reflexivity. Qed.

Example detectSerialPorts_fallback :
  detectSerialPorts (mkWorld (Ok ["/dev/cu.Bluetooth-Modem"%string])
                       (fun _ _ _ => ReadFailed "") 0)
  = Ok ["/dev/cu.Bluetooth-Modem"%string].
Proof. reflexivity. Qed.

Lemma detectDataFormat_total (b0 b1 b2 b3 : byte) :
  exists r, detectDataFormat [b0; b1; b2; b3] = Some r.
Proof.
  destruct (confidences_some b0 b1 b2 b3) as (dc & fc & H).
  rewrite (detectDataFormat_confidences _ dc fc H). eauto.
Qed.

Lemma testDevice_silent w port baudRate slaveID config :
  responsive_candidate w port baudRate slaveID = false ->
  exists d, testDevice w port baudRate slaveID config = Some d
            /\ Responsive d = false.
Proof.
  unfold responsive_candidate, testDevice.
  destruct (probe w port baudRate slaveID) as [err | err | results].
  - eauto.
  - eauto.
  - intros ->. eauto.
Qed.

Lemma length_4_inv {A : Type} (l : list A) :
  List.length l = 4%nat -> exists a b c d, l = [a; b; c; d].
Proof.
  destruct l as [| a [| b [| c [| d [| e l]]]]]; try discriminate.
  intros _. eauto.
Qed.

Lemma detectDataFormat_some (b0 b1 b2 b3 : byte) :
  exists format confidence,
    detectDataFormat [b0; b1; b2; b3] = Some (format, confidence)
    /\ (format = DecimalFormat \/ format = FloatFormat).
Proof.
  destruct (confidences_some b0 b1 b2 b3) as (dc & fc & H).
  rewrite (detectDataFormat_confidences _ dc fc H).
  destruct (F64.gtb dc fc); eauto.
Qed.

(** The outcome of a probe, field by field. *)
Lemma testDevice_outcome w port baudRate slaveID config :
  exists d,
    testDevice w port baudRate slaveID config = Some d
    /\ Responsive d = responsive_candidate w port baudRate slaveID
    /\ Device d = port
    /\ dev_SlaveID d = slaveID
    /\ (DataFormat d = DecimalFormat \/ DataFormat d = FloatFormat)
    /\ (LastReading d = None
        <-> Responsive d = false \/ AutoDetectFormat config = false).
Proof.
  unfold testDevice, responsive_candidate.
  destruct (probe w port baudRate slaveID) as [err | err | results].
  - eexists. split; [reflexivity |]. cbn. tauto.
  - eexists. split; [reflexivity |]. cbn. tauto.
  - destruct (Nat.eqb_spec (List.length results) 4) as [E | N].
    + destruct (length_4_inv results E) as (b0 & b1 & b2 & b3 & ->).
      cbn [index nth_error bind].
      destruct (AutoDetectFormat config).
      * destruct (detectDataFormat_some b0 b1 b2 b3) as (f & c & -> & Hf).
        cbn [bind fst snd].
        destruct Hf as [-> | ->].
        -- change (DecimalFormat =? DecimalFormat) with true. cbv iota.
           rewrite parseDecimalFormatStatic_eq. cbn [bind].
           eexists. split; [reflexivity |]. cbn.
           repeat split; auto; try discriminate.
           intros [H | H]; discriminate.
        -- change (FloatFormat =? DecimalFormat) with false.
           change (FloatFormat =? FloatFormat) with true. cbv iota.
           rewrite parseFloatFormatStatic_eq. cbv zeta. cbn [bind].
           eexists. split; [reflexivity |]. cbn.
           repeat split; auto; try discriminate.
           intros [H | H]; discriminate.
      * eexists. split; [reflexivity |]. cbn. tauto.
    + eexists. split; [reflexivity |]. cbn. tauto.
Qed.

(** The log line is harmless for a probe that did not answer, for a
    quiet scanner, and when the encoding is detected. *)
Lemma log_found_ok s w port baudRate slaveID config d :
  testDevice w port baudRate slaveID config = Some d ->
  Responsive d = false \/ verbose s = false
  \/ AutoDetectFormat config = true ->
  log_found s d = Some tt.
Proof.
  intros T H. unfold log_found.
  destruct (Responsive d) eqn:R; cbn [andb]; [| reflexivity].
  destruct (verbose s) eqn:V; [| reflexivity].
  destruct (testDevice_outcome w port baudRate slaveID config)
    as (d' & T' & _ & _ & _ & _ & L).
  rewrite T in T'. apply Some_eq in T'. subst d'.
  destruct (LastReading d); [reflexivity |].
  destruct L as [L _]. destruct (L eq_refl) as [L1 | L1]; [congruence |].
  destruct H as [H | [H | H]]; congruence.
Qed.

(** With the cap of 1 that [AutoConfigure] sets, the scan of a port
    stops after its first probe, the one of station 0x16, answered or
    not. *)
Lemma scanPortWithBaudRate_auto s w port baudRate :
  scanPortWithBaudRate s w port baudRate autoScanConfig
  = (d <- testDevice w port baudRate 22 autoScanConfig ;; Some [d]).
Proof.
  unfold scanPortWithBaudRate.
  cbn [SlaveIDs autoScanConfig GetQuickScanConfig scanSlaveIDs].
  destruct (testDevice w port baudRate 22 _) as [d |] eqn:T; [| reflexivity].
  cbn [bind app].
  rewrite (log_found_ok s w port baudRate 22 _ d T)
    by (right; right; reflexivity).
  reflexivity.
Qed.

Lemma record_device_silent result d :
  Responsive d = false ->
  Devices (record_device autoScanConfig result d) = Devices result.
Proof. intros H. unfold record_device. rewrite H. reflexivity. Qed.

Lemma scanPort_silent s w port :
  responsive_candidate w port 9600 22 = false ->
  exists d, scanPort s w port autoScanConfig = Some [d]
            /\ Responsive d = false.
Proof.
  intros Hs. unfold scanPort.
  cbn [BaudRates autoScanConfig GetQuickScanConfig scanBaudRates].
  rewrite scanPortWithBaudRate_auto.
  destruct (testDevice_silent w port 9600 22 autoScanConfig Hs)
    as (d & -> & Hr).
  exists d. split; [| assumption].
  cbn [bind List.length Nat.ltb Nat.leb hasResponsiveDevice existsb app].
  rewrite Hr. reflexivity.
Qed.

Lemma scanPorts_silent s w ports result :
  (forall port, responsive_candidate w port 9600 22 = false) ->
  Devices result = [] ->
  exists r, scanPorts s w autoScanConfig ports result = Some r
            /\ Devices r = [].
Proof.
  intros Hs. revert result. induction ports as [| port rest IH]; intros result Hd.
  - cbn. eauto.
  - cbn [scanPorts].
    destruct (scanPort_silent s w port (Hs port)) as (d & -> & Hr).
    cbn [bind fold_left].
    pose proof (record_device_silent result d Hr) as E. rewrite Hd in E.
    rewrite E. cbn [List.length Z.of_nat].
    change (MaxDevices autoScanConfig <=? 0) with false. cbv iota.
    apply IH. assumption.
Qed.

(** X20.  If station 0x16 is silent at 9600 baud on every port,
    [AutoConfigure] returns an error, whichever other stations
    answer and whether the scanner is verbose or not. *)
Lemma AutoConfigure_needs_station_22 s w :
  (forall port, responsive_candidate w port 9600 22 = false) ->
  exists msg, AutoConfigure s w = Some (Err msg).
Proof.
  intros Hs. unfold AutoConfigure, ScanDevices.
  cbn [SerialPorts autoScanConfig GetQuickScanConfig List.length Nat.eqb].
  destruct (detectSerialPorts w) as [ports | err]; cbn [bind]; [| eauto].
  destruct (scanPorts_silent s w ports (mkScanResult [] 0 0 autoScanConfig)
              Hs eq_refl)
    as (r & -> & Hd).
  cbn [bind]. rewrite Hd. cbn. eauto.
Qed.

(** C9, the code at the failing input.  One port, and on it a meter at
    station 1 answering at 9600 baud: a candidate of the quick scan.
    [AutoConfigure] reports that no device answers; the quick scan
    itself, with its cap of 10, finds the meter.  This is so for the
    verbose scanner [NewScanner] returns and for a quiet one. *)
Theorem AutoConfigure_misses_station_1 (s : Scanner) :
  responsive_candidate bus_station_1 "/dev/ttyUSB0" 9600 1 = true
  /\ In 1 (SlaveIDs GetQuickScanConfig)
  /\ In 9600 (BaudRates GetQuickScanConfig)
  /\ AutoConfigure s bus_station_1
     = Some (Err "未找到任何響應的壓差儀設備")
  /\ (exists r, ScanDevices s bus_station_1 GetQuickScanConfig = Some (Ok r)
                /\ Successful r = 1 /\ TotalTested r = 6
                /\ map dev_SlaveID (Devices r) = [1]).
Proof.
  split; [reflexivity |].
  split; [cbn; tauto |].
  split; [cbn; tauto |].
  destruct s as [[|]].
  - split; [vm_compute; reflexivity |].
    eexists. split; [vm_compute; reflexivity |]. repeat split.
  - split; [vm_compute; reflexivity |].
    eexists. split; [vm_compute; reflexivity |]. repeat split.
Qed.

(* ================================================================== *)
(** * Further properties of the package *)
(* ================================================================== *)

Lemma append_nonempty (c : ascii) (s t : string) :
  (String c s ++ t)%string <> ""%string.
Proof. cbn. discriminate. Qed.

Lemma ReadPressure_outcome pm now answer :
  exists r,
    ReadPressure pm now answer = Some r
    /\ Valid r = read_ok pm answer
    /\ Timestamp r = now
    /\ SlaveID r = slaveID pm
    /\ (Error r = ""%string <-> read_ok pm answer = true)
    /\ (read_ok pm answer = false -> Pressure r = F64.zero).
Proof.
  unfold ReadPressure, read_ok. destruct answer as [results | err].
  - destruct (Nat.eqb_spec (List.length results) 4) as [E | N]; cbn [negb andb].
    + destruct (length_4_inv results E) as (b0 & b1 & b2 & b3 & ->).
      destruct (dataFormat pm =? DecimalFormat); cbn [orb].
      * rewrite parseDecimalFormat_eq. cbn [bind]. eexists.
        split; [reflexivity |]. cbn. repeat split; try discriminate; auto.
      * destruct (dataFormat pm =? FloatFormat).
        -- rewrite parseFloatFormat_eq. cbn [bind]. eexists.
           split; [reflexivity |]. cbn. repeat split; try discriminate; auto.
        -- eexists. split; [reflexivity |].
           cbn [Timestamp SlaveID Valid Error Pressure].
           repeat split; try discriminate.
           all: try (intros H; apply append_nonempty in H; contradiction).
    + eexists. split; [reflexivity |].
      cbn [Timestamp SlaveID Valid Error Pressure].
      repeat split; try discriminate.
      all: try (intros H; apply append_nonempty in H; contradiction).
  - eexists. split; [reflexivity |].
    cbn [Timestamp SlaveID Valid Error Pressure].
    repeat split; try discriminate.
    all: try (intros H; apply append_nonempty in H; contradiction).
Qed.

Lemma read_ok_iff pm answer :
  read_ok pm answer = true <->
  (exists results, answer = Ok results /\ List.length results = 4%nat)
  /\ (dataFormat pm = DecimalFormat \/ dataFormat pm = FloatFormat).
Proof.
  unfold read_ok. destruct answer as [results | err].
  - rewrite andb_true_iff, orb_true_iff, Nat.eqb_eq, !Z.eqb_eq. split.
    + intros [L F]. split; [eauto | exact F].
    + intros [(results' & E & L) F]. injection E as <-. tauto.
  - split; [discriminate |]. intros [(results' & E & _) _]. discriminate.
Qed.

(** X1.  For every session, clock and answer of the transport, [ReadPressure]
    returns a reading that carries the clock and the session's station.
    The reading is valid exactly when the transport answered with four
    bytes and the configured encoding is Decimal or Float; it is valid
    exactly when its error text is empty, and an invalid reading has
    pressure 0. *)
Theorem ReadPressure_valid_iff
    (pm : MeterConfig) (now : Time) (answer : result (list byte)) :
  exists r,
    ReadPressure pm now answer = Some r
    /\ Timestamp r = now
    /\ SlaveID r = slaveID pm
    /\ (Valid r = true <->
        (exists results, answer = Ok results /\ List.length results = 4%nat)
        /\ (dataFormat pm = DecimalFormat \/ dataFormat pm = FloatFormat))
    /\ (Valid r = true <-> Error r = ""%string)
    /\ (Valid r = false -> Pressure r = F64.zero).
Proof.
  destruct (ReadPressure_outcome pm now answer) as (r & R & V & T & S & E & P).
  exists r. split; [exact R |]. split; [exact T |]. split; [exact S |].
  rewrite V. split; [apply read_ok_iff |]. split; [| exact P].
  split; intros H; apply E; exact H.
Qed.

(** X2.  An answer whose length is not 4 gives, under every encoding, an
    invalid reading with no raw data, pressure 0 and an error text
    that shows the length received. *)
Theorem ReadPressure_wrong_length
    (pm : MeterConfig) (now : Time) (results : list byte) :
  List.length results <> 4%nat ->
  ReadPressure pm now (Ok results)
  = Some (mkReading now F64.zero (slaveID pm) [] false
            ("接收數據長度錯誤: 期望4字節，實際"
               ++ fmt_d (Z.of_nat (List.length results)) ++ "字節")%string).
Proof.
  intros N. unfold ReadPressure.
  destruct (Nat.eqb_spec (List.length results) 4); [contradiction | reflexivity].
Qed.

Lemma ReadPressure_wrong_length_witness :
  ReadPressure (mkMeter 22 FloatFormat) 9 (Ok [x00; x64])
  = Some (mkReading 9 F64.zero 22 [] false
            "接收數據長度錯誤: 期望4字節，實際2字節").
Proof.
  apply (ReadPressure_wrong_length (mkMeter 22 FloatFormat) 9 [x00; x64]).
  cbn. discriminate.
Defined.

(** X3.  [TestConnection] returns no error exactly when the transport answers
    with four bytes and the encoding of the session is Decimal or
    Float. *)
Theorem TestConnection_ok_iff
    (pm : PressureMeter) (now : Time) (answer : result (list byte)) :
  exists outcome,
    TestConnection pm now answer = Some outcome
    /\ (outcome = None <->
        (exists results, answer = Ok results /\ List.length results = 4%nat)
        /\ (dataFormat (pm_meter pm) = DecimalFormat
            \/ dataFormat (pm_meter pm) = FloatFormat)).
Proof.
  unfold TestConnection.
  destruct (ReadPressure_outcome (pm_meter pm) now answer)
    as (r & -> & V & _). cbn [bind].
  rewrite V. pose proof (read_ok_iff (pm_meter pm) answer) as I.
  destruct (read_ok (pm_meter pm) answer); cbn [negb]; eexists;
    (split; [reflexivity |]).
  - split; [intros _; apply I; reflexivity | reflexivity].
  - split; [discriminate |]. intros H. apply I in H. discriminate.
Qed.

Lemma nth_error_update_nth {A : Type} (l : list A) (i : nat) (x y : A) :
  nth_error l i = Some y -> nth_error (update_nth i x l) i = Some x.
Proof.
  revert i. induction l as [| h t IH]; intros [| i]; cbn; try discriminate.
  - reflexivity.
  - apply IH.
Qed.

Lemma update_nth_twice {A : Type} (l : list A) (i : nat) (x y : A) :
  update_nth i y (update_nth i x l) = update_nth i y l.
Proof.
  revert i. induction l as [| h t IH]; intros [| i]; cbn; try reflexivity.
  rewrite IH. reflexivity.
Qed.

(** X4.  In every state a session reaches from the one [NewPressureMeter]
    returns, by any sequence of Start, Stop, ticks, loop iterations and
    consumer reads, [GetStatus] reports a queue capacity of 100 and a
    queue size within it. *)
Theorem GetStatus_queue_within_capacity
    (m : MeterConfig) (evs : list event) (pm' : PressureMeter) :
  run (fresh m) evs = Some pm' ->
  st_queue_capacity (GetStatus pm') = 100%nat
  /\ (st_queue_size (GetStatus pm') <= st_queue_capacity (GetStatus pm'))%nat.
Proof.
  intros H.
  assert (W : within_capacity (fresh m)) by (split; cbn; [reflexivity | lia]).
  destruct (run_keeps_capacity evs (fresh m) pm' W H) as [C L].
  unfold GetStatus. cbn [st_queue_capacity st_queue_size].
  rewrite C. split; [reflexivity | exact L].
Qed.

Lemma GetStatus_queue_within_capacity_witness :
  st_queue_capacity
    (GetStatus (mkPM (mkMeter 22 DecimalFormat)
                  (Chan.make ReadingBufferSize) false true [Polling true]))
  = 100%nat
  /\ (st_queue_size
        (GetStatus (mkPM (mkMeter 22 DecimalFormat)
                      (Chan.make ReadingBufferSize) false true [Polling true]))
      <= st_queue_capacity
           (GetStatus (mkPM (mkMeter 22 DecimalFormat)
                         (Chan.make ReadingBufferSize) false true
                         [Polling true])))%nat.
Proof.
  apply (GetStatus_queue_within_capacity (mkMeter 22 DecimalFormat)
           [EvStart Second; EvTick 0]).
  reflexivity.
Defined.

(** X6.  While the stop channel is open, a tick of a polling goroutine followed
    by one iteration of its loop performs one read and delivers that
    reading as the newest of the queue, whatever the run time would
    pick; the goroutine is back at its [select] with no tick waiting
    and nothing else of the session changes. *)
Theorem live_loop_polls_once
    (pm : PressureMeter) (i : nat) (t p : bool) (now : Time)
    (answer : result (list byte)) :
  within_capacity pm ->
  stopCh_closed pm = false ->
  nth_error (loops pm) i = Some (Polling t) ->
  exists r q,
    ReadPressure (pm_meter pm) now answer = Some r
    /\ deliver (readings pm) r = Some q
    /\ (exists older, Chan.buf q = older ++ [r])
    /\ run pm [EvTick i; EvSelect i p now answer]
       = Some (mkPM (pm_meter pm) q false (running pm)
                 (update_nth i (Polling false) (loops pm))).
Proof.
  intros [C L] Hs Hl.
  destruct (ReadPressure_total (pm_meter pm) now answer) as [r Hr].
  assert (D : exists q, deliver (readings pm) r = Some q
                        /\ exists older, Chan.buf q = older ++ [r]).
  { destruct (Nat.lt_ge_cases (Chan.len (readings pm)) (Chan.cap (readings pm)))
      as [Lt | Ge].
    - rewrite deliver_room by assumption. eexists. split; [reflexivity |].
      cbn. eauto.
    - rewrite deliver_full by (rewrite ?C; unfold ReadingBufferSize in *; lia).
      eexists. split; [reflexivity |]. cbn. eauto. }
  destruct D as (q & Hq & Hlast). exists r, q.
  split; [exact Hr |]. split; [exact Hq |]. split; [exact Hlast |].
  cbn [run step]. rewrite Hl. cbn [bind]. unfold select_once.
  cbn [loops set_loops stopCh_closed pm_meter readings].
  rewrite (nth_error_update_nth _ _ _ _ Hl). rewrite Hs. cbn [negb andb].
  rewrite Hr. cbn [bind]. rewrite Hq. cbn [bind].
  rewrite update_nth_twice. destruct pm; cbn in *. subst. reflexivity.
Qed.

Lemma live_loop_polls_once_witness :
  exists r q,
    ReadPressure (mkMeter 22 DecimalFormat) 7 (Ok [x00; x00; x00; x64]) = Some r
    /\ deliver (Chan.make ReadingBufferSize) r = Some q
    /\ (exists older, Chan.buf q = older ++ [r])
    /\ run (mkPM (mkMeter 22 DecimalFormat) (Chan.make ReadingBufferSize)
              false true [Polling false])
         [EvTick 0; EvSelect 0 true 7 (Ok [x00; x00; x00; x64])]
       = Some (mkPM (mkMeter 22 DecimalFormat) q false true [Polling false]).
Proof.
  apply (live_loop_polls_once
           (mkPM (mkMeter 22 DecimalFormat) (Chan.make ReadingBufferSize)
              false true [Polling false])
           0 false true 7 (Ok [x00; x00; x00; x64])).
  - split; cbn; [reflexivity | lia].
  - reflexivity.
  - reflexivity.
Defined.

(** X7.  A second [Stop] right after a [Stop], and a second [Start] right after
    a [Start], change nothing and fail only where the first one fails.
    [Stop] leaves the session not running and its goroutines as they
    are, and panics only on a running session whose stop channel is
    closed already; [Start] leaves the session running, adds one
    goroutine only if the session was not running, and fails only for
    an interval that is not positive. *)
Theorem Stop_Stop_and_Start_Start
    (pm : PressureMeter) (interval interval' : Duration) :
  run pm [EvStop; EvStop] = run pm [EvStop]
  /\ run pm [EvStart interval; EvStart interval'] = run pm [EvStart interval]
  /\ match run pm [EvStop] with
     | Some pm' => running pm' = false /\ loops pm' = loops pm
     | None => running pm = true /\ stopCh_closed pm = true
     end
  /\ match run pm [EvStart interval] with
     | Some pm' =>
         running pm' = true
         /\ (running pm = true -> pm' = pm)
         /\ (running pm = false -> loops pm' = loops pm ++ [Polling false])
     | None => running pm = false /\ interval <= 0
     end.
Proof.
  cbn [run step bind].
  destruct (running pm) eqn:R, (stopCh_closed pm) eqn:S,
    (Z.leb_spec interval 0) as [Li | Li];
    cbn [negb bind step running stopCh_closed loops];
    rewrite ?R, ?S; cbn [negb bind running loops];
    repeat split; auto; try discriminate.
Qed.

(** X8.  [GetLastReading] takes the oldest reading of the queue, not the last
    one delivered: after a delivery it returns the reading just
    delivered only if the queue was empty, or was full with that single
    place; it removes exactly the reading it returns. *)
Theorem GetLastReading_returns_oldest (pm : PressureMeter) (r : PressureReading) :
  (0 < Chan.cap (readings pm))%nat ->
  (Chan.len (readings pm) <= Chan.cap (readings pm))%nat ->
  exists q,
    deliver (readings pm) r = Some q
    /\ fst (GetLastReading (set_readings pm q))
       = Some (match Chan.buf (readings pm) with
               | [] => r
               | oldest :: second =>
                   if Nat.ltb (Chan.len (readings pm)) (Chan.cap (readings pm))
                   then oldest
                   else match second with
                        | [] => r
                        | x :: _ => x
                        end
               end)
    /\ S (Chan.len (readings (snd (GetLastReading (set_readings pm q)))))
       = Chan.len q.
Proof.
  intros Hc Hl. unfold GetLastReading.
  destruct (Nat.ltb_spec (Chan.len (readings pm)) (Chan.cap (readings pm)))
    as [L | G].
  - rewrite deliver_room by assumption. eexists. split; [reflexivity |].
    cbn [readings set_readings]. unfold Chan.recv, Chan.len.
    cbn [Chan.buf Chan.cap].
    destruct (Chan.buf (readings pm)) as [| oldest second]; cbn; auto.
  - rewrite deliver_full by lia. eexists. split; [reflexivity |].
    cbn [readings set_readings]. unfold Chan.recv, Chan.len in *.
    cbn [Chan.buf Chan.cap].
    destruct (Chan.buf (readings pm)) as [| oldest [| x second]];
      cbn in G, Hl, Hc |- *; [lia | auto | auto].
Qed.

Lemma GetLastReading_returns_oldest_witness :
  let r1 := mkReading 1 F64.zero 22 [] false "a" in
  let r2 := mkReading 2 F64.zero 22 [] false "b" in
  let pm := mkPM (mkMeter 22 DecimalFormat) (Chan.mk [r1] 100) false true
              [Polling false] in
  exists q,
    deliver (readings pm) r2 = Some q
    /\ fst (GetLastReading (set_readings pm q)) = Some r1
    /\ S (Chan.len (readings (snd (GetLastReading (set_readings pm q)))))
       = Chan.len q.
Proof.
  intros r1 r2 pm.
  apply (GetLastReading_returns_oldest pm r2); cbn; lia.
Defined.

Lemma flush_loop_drains (c : Chan.chan PressureReading) :
  forall fuel count,
    (Chan.len c < fuel)%nat ->
    flush_loop fuel c count
    = Some (count + Z.of_nat (Chan.len c), Chan.mk [] (Chan.cap c)).
Proof.
  destruct c as [buf cap]. unfold Chan.len. cbn [Chan.buf Chan.cap].
  induction buf as [| x rest IH]; intros fuel count Hf.
  - destruct fuel as [| fuel]; [cbn in Hf; lia |]. cbn.
    rewrite Z.add_0_r. reflexivity.
  - destruct fuel as [| fuel]; [cbn in Hf; lia |].
    cbn [flush_loop Chan.recv Chan.buf Chan.cap].
    rewrite IH by (cbn in Hf; lia). f_equal. f_equal.
    cbn [List.length]. lia.
Qed.

(** X9.  Given fuel for its loop, [FlushReadings] returns the number of
    readings that were queued and leaves the queue empty, with its
    capacity, the running flag and the goroutines untouched; a
    [GetLastReading] after it finds nothing. *)
Theorem FlushReadings_empties (fuel : nat) (pm : PressureMeter) :
  (Chan.len (readings pm) < fuel)%nat ->
  exists pm',
    FlushReadings fuel pm = Some (Z.of_nat (Chan.len (readings pm)), pm')
    /\ Chan.len (readings pm') = 0%nat
    /\ Chan.cap (readings pm') = Chan.cap (readings pm)
    /\ fst (GetLastReading pm') = None
    /\ running pm' = running pm /\ loops pm' = loops pm.
Proof.
  intros Hf. unfold FlushReadings.
  rewrite (flush_loop_drains (readings pm) fuel 0 Hf). cbn [bind fst snd].
  eexists. split; [reflexivity |]. cbn. repeat split.
Qed.

Lemma FlushReadings_empties_witness :
  exists pm',
    FlushReadings 5
      (mkPM (mkMeter 22 DecimalFormat)
         (Chan.mk [mkReading 1 F64.zero 22 [] false "e";
                   mkReading 2 F64.zero 22 [] false "e"] 100)
         false true [Polling false])
    = Some (2, pm')
    /\ Chan.len (readings pm') = 0%nat
    /\ Chan.cap (readings pm') = 100%nat
    /\ fst (GetLastReading pm') = None
    /\ running pm' = true /\ loops pm' = [Polling false].
Proof.
  apply (FlushReadings_empties 5
           (mkPM (mkMeter 22 DecimalFormat)
              (Chan.mk [mkReading 1 F64.zero 22 [] false "e";
                        mkReading 2 F64.zero 22 [] false "e"] 100)
              false true [Polling false])).
  cbn. lia.
Defined.

Lemma deliver_interleaved_never_blocks_witness :
  exists c',
    deliver_interleaved 1 0 (Chan.mk [1; 2] 2) 3 = Some c'
    /\ Chan.cap c' = 2%nat
    /\ (Chan.len c' <= Chan.cap c')%nat
    /\ (exists q, Chan.buf c' = q ++ [3]).
Proof.
  apply (deliver_interleaved_never_blocks 1 0 (Chan.mk [1; 2] 2) 3); cbn; lia.
Defined.

Lemma decimal_values_unit : forallb unit_interval decimal_values = true.
Proof. vm_compute. reflexivity. Qed.

Lemma float_values_unit : forallb unit_interval float_values = true.
Proof. vm_compute. reflexivity. Qed.

(** X10.  For every 4-byte payload [detectDataFormat] returns the Decimal or
    the Float encoding, with a confidence between 0 and 1. *)
Theorem detectDataFormat_confidence_range (b0 b1 b2 b3 : byte) :
  exists format confidence,
    detectDataFormat [b0; b1; b2; b3] = Some (format, confidence)
    /\ (format = DecimalFormat \/ format = FloatFormat)
    /\ F64.leb F64.zero confidence = true
    /\ F64.leb confidence (F64.of_int 1) = true.
Proof.
  destruct (confidences_some b0 b1 b2 b3) as (dc & fc & H).
  rewrite (detectDataFormat_confidences _ dc fc H).
  destruct (confidences_values _ dc fc H) as [Hd Hf].
  pose proof decimal_values_unit as Ud. pose proof float_values_unit as Uf.
  rewrite forallb_forall in Ud, Uf.
  specialize (Ud dc Hd). specialize (Uf fc Hf).
  unfold unit_interval in Ud, Uf.
  apply andb_prop in Ud. apply andb_prop in Uf.
  destruct (F64.gtb dc fc); do 2 eexists; (split; [reflexivity |]); tauto.
Qed.

Lemma index_short (data : list byte) (i : nat) :
  (List.length data <= i)%nat -> index data i = None.
Proof. intros H. apply nth_error_None. exact H. Qed.

Lemma BigEndian_Uint32_short (data : list byte) :
  (List.length data < 4)%nat -> BigEndian_Uint32 data = None.
Proof.
  intros H. unfold BigEndian_Uint32. rewrite index_short by lia. reflexivity.
Qed.

(** X11.  On a payload of fewer than four bytes each of the four decoders and
    [detectDataFormat] panics on an index out of range. *)
Theorem decoders_panic_on_short_payload (data : list byte) :
  (List.length data < 4)%nat ->
  parseDecimalFormat data = None
  /\ parseDecimalFormatStatic data = None
  /\ parseFloatFormat data = None
  /\ parseFloatFormatStatic data = None
  /\ detectDataFormat data = None.
Proof.
  intros H.
  assert (D : parseDecimalFormatStatic data = None).
  { unfold parseDecimalFormatStatic. rewrite BigEndian_Uint32_short by exact H.
    reflexivity. }
  assert (I : ieeeBytes data = None).
  { unfold ieeeBytes.
    destruct (index data 2) eqn:E2; [| reflexivity]. cbn [bind].
    rewrite index_short; [reflexivity |].
    assert (2 < List.length data)%nat by (apply nth_error_Some; unfold index in E2; congruence).
    lia. }
  repeat split.
  - unfold parseDecimalFormat. rewrite BigEndian_Uint32_short by exact H.
    reflexivity.
  - exact D.
  - unfold parseFloatFormat. rewrite I. reflexivity.
  - unfold parseFloatFormatStatic. rewrite I. reflexivity.
  - unfold detectDataFormat. rewrite D. reflexivity.
Qed.

Lemma decoders_panic_on_short_payload_witness :
  parseDecimalFormat [x00; x64] = None
  /\ parseDecimalFormatStatic [x00; x64] = None
  /\ parseFloatFormat [x00; x64] = None
  /\ parseFloatFormatStatic [x00; x64] = None
  /\ detectDataFormat [x00; x64] = None.
Proof.
  apply (decoders_panic_on_short_payload [x00; x64]). cbn. lia.
Defined.

(** X12.  For every 4-byte payload the scanner's float decoder returns a
    number that is neither NaN nor infinite: 0, or what the meter's
    decoder returns. *)
Theorem parseFloatFormatStatic_finite (b0 b1 b2 b3 : byte) :
  exists x,
    parseFloatFormatStatic [b0; b1; b2; b3] = Some x
    /\ F64.IsNaN x = false /\ F64.IsInf x = false
    /\ (x = F64.zero
        \/ parseFloatFormat [b0; b1; b2; b3] = Some x).
Proof.
  rewrite parseFloatFormatStatic_eq, parseFloatFormat_eq. cbv zeta.
  destruct (Float32frombits (bigEndianUint32 b2 b3 b0 b1)) as [s | s | | s m e];
    cbn; eexists; repeat split; auto.
Qed.

(** X13.  A probe always yields a device record, for the port and station
    probed.  The record is responsive exactly when the read returned
    four bytes; a failing connection and a failing read give an
    unresponsive record with the error text and no reading. *)
Theorem testDevice_responsive_iff
    (w : World) (port : string) (baudRate slaveID : Z) (config : ScanConfig) :
  exists d,
    testDevice w port baudRate slaveID config = Some d
    /\ Device d = port /\ dev_SlaveID d = slaveID
    /\ (Responsive d = true <->
        exists results,
          probe w port baudRate slaveID = Answer results
          /\ List.length results = 4%nat)
    /\ (forall err, probe w port baudRate slaveID = ConnectFailed err ->
          Responsive d = false /\ dev_Error d = ("連接失敗: " ++ err)%string
          /\ LastReading d = None)
    /\ (forall err, probe w port baudRate slaveID = ReadFailed err ->
          Responsive d = false /\ dev_Error d = ("讀取失敗: " ++ err)%string
          /\ LastReading d = None).
Proof.
  destruct (testDevice_outcome w port baudRate slaveID config)
    as (d & T & R & P & S & _).
  exists d. split; [exact T |]. split; [exact P |]. split; [exact S |].
  split; [| split].
  - rewrite R. unfold responsive_candidate.
    destruct (probe w port baudRate slaveID) as [err | err | results].
    + split; [discriminate | intros (r & E & _); discriminate].
    + split; [discriminate | intros (r & E & _); discriminate].
    + rewrite Nat.eqb_eq. split; [eauto |].
      intros (r & E & L). injection E as <-. exact L.
  - intros err E. unfold testDevice in T. rewrite E in T.
    apply Some_eq in T. subst d. cbn. auto.
  - intros err E. unfold testDevice in T. rewrite E in T.
    apply Some_eq in T. subst d. cbn. auto.
Qed.

(** The probes of one port at one rate, for a scanner whose log line
    cannot fail: a quiet one, or any when the encoding is detected. *)
Lemma scanSlaveIDs_spec s w port baudRate config :
  verbose s = false \/ AutoDetectFormat config = true ->
  forall ids devices,
  exists probed,
    scanSlaveIDs s w port baudRate config ids devices = Some (devices ++ probed)
    /\ (List.length probed <= List.length ids)%nat
    /\ (ids <> [] -> probed <> [])
    /\ (0 < MaxDevices config ->
        Z.of_nat (List.length devices) < MaxDevices config ->
        Z.of_nat (List.length (devices ++ probed)) <= MaxDevices config)
    /\ Forall (fun d => Device d = port
                        /\ In (dev_SlaveID d) ids
                        /\ Responsive d
                           = responsive_candidate w port baudRate (dev_SlaveID d))
         probed.
Proof.
  intros Hq. induction ids as [| slaveID rest IH]; intros devices.
  - exists []. cbn. rewrite app_nil_r. repeat split; auto; try lia.
  - cbn [scanSlaveIDs].
    destruct (testDevice_outcome w port baudRate slaveID config)
      as (d & T & R & P & S & _). rewrite T. cbn [bind].
    rewrite (log_found_ok s w port baudRate slaveID config d T)
      by (right; exact Hq).
    cbn [bind].
    destruct (Z.leb_spec (MaxDevices config)
                (Z.of_nat (List.length (devices ++ [d])))) as [Full | Room].
    + exists [d]. split; [reflexivity |]. cbn [List.length].
      split; [lia |]. split; [discriminate |]. split.
      * intros Hpos Hlt. rewrite length_app in *. cbn [List.length] in *. lia.
      * constructor; [| constructor]. subst. cbn. auto.
    + destruct (IH (devices ++ [d])) as (probed & E & L & _ & B & F).
      exists (d :: probed). rewrite E, <- app_assoc. cbn [app].
      split; [reflexivity |]. cbn [List.length].
      split; [lia |]. split; [discriminate |]. split.
      * intros Hpos Hlt. specialize (B Hpos Room).
        rewrite <- app_assoc in B. exact B.
      * constructor.
        -- subst. cbn. auto.
        -- eapply Forall_impl; [| exact F]. cbn. intros a (? & ? & ?). auto.
Qed.

(** The same probes by a verbose scanner when the encoding is not
    detected: the log line panics at the first probe that answers. *)
Lemma scanSlaveIDs_loud s w port baudRate config :
  verbose s = true -> AutoDetectFormat config = false ->
  forall ids devices,
  exists probed,
    scanSlaveIDs (SetVerbose s false) w port baudRate config ids devices
    = Some (devices ++ probed)
    /\ scanSlaveIDs s w port baudRate config ids devices
       = if hasResponsiveDevice probed then None
         else Some (devices ++ probed).
Proof.
  intros Hv Ha. induction ids as [| slaveID rest IH]; intros devices.
  - exists []. cbn. rewrite app_nil_r. auto.
  - cbn [scanSlaveIDs].
    destruct (testDevice_outcome w port baudRate slaveID config)
      as (d & T & R & P & S & _ & L). rewrite T. cbn [bind].
    rewrite (log_found_ok (SetVerbose s false) w port baudRate slaveID
               config d T) by (right; left; reflexivity).
    cbn [bind].
    assert (N : LastReading d = None) by (apply L; right; exact Ha).
    unfold log_found. rewrite Hv, N, andb_true_r.
    unfold hasResponsiveDevice in *.
    destruct (Responsive d) eqn:Rd; cbn [bind].
    + destruct (MaxDevices config <=? Z.of_nat (List.length (devices ++ [d]))).
      * exists [d]. cbn [existsb]. rewrite Rd. auto.
      * destruct (IH (devices ++ [d])) as (probed & E & _).
        exists (d :: probed). rewrite E, <- app_assoc. cbn [app existsb].
        rewrite Rd. auto.
    + destruct (MaxDevices config <=? Z.of_nat (List.length (devices ++ [d]))).
      * exists [d]. cbn [existsb]. rewrite Rd. auto.
      * destruct (IH (devices ++ [d])) as (probed & E & E').
        exists (d :: probed). rewrite E, E', <- app_assoc. cbn [app existsb].
        rewrite Rd. auto.
Qed.

(** X14.  For a quiet scanner, or when the encoding is detected, the
    scan of one port at one baud rate returns: it probes no more
    stations than the configuration lists and, for a positive cap, no
    more than the cap; it probes at least one if any is listed; every
    record is for that port and a listed station, responsive as the
    probe says.  For a verbose scanner without detection of the
    encoding the scan panics exactly when one of those probes
    answers, and returns what the quiet scanner returns otherwise. *)
Theorem scanPortWithBaudRate_bounded
    (s : Scanner) (w : World) (port : string) (baudRate : Z)
    (config : ScanConfig) :
  (verbose s = false \/ AutoDetectFormat config = true ->
   exists devices,
     scanPortWithBaudRate s w port baudRate config = Some devices
     /\ (List.length devices <= List.length (SlaveIDs config))%nat
     /\ (SlaveIDs config <> [] -> devices <> [])
     /\ (0 < MaxDevices config ->
         Z.of_nat (List.length devices) <= MaxDevices config)
     /\ Forall (fun d => Device d = port
                         /\ In (dev_SlaveID d) (SlaveIDs config)
                         /\ Responsive d
                            = responsive_candidate w port baudRate
                                (dev_SlaveID d))
          devices)
  /\ (verbose s = true -> AutoDetectFormat config = false ->
      exists devices,
        scanPortWithBaudRate (SetVerbose s false) w port baudRate config
        = Some devices
        /\ scanPortWithBaudRate s w port baudRate config
           = if hasResponsiveDevice devices then None else Some devices).
Proof.
  unfold scanPortWithBaudRate. split.
  - intros Hq.
    destruct (scanSlaveIDs_spec s w port baudRate config Hq (SlaveIDs config) [])
      as (probed & E & L & N & B & F).
    exists probed. cbn [app] in *. split; [exact E |]. split; [exact L |].
    split; [exact N |]. split; [| exact F].
    intros Hpos. apply B; [exact Hpos |]. cbn. lia.
  - intros Hv Ha.
    destruct (scanSlaveIDs_loud s w port baudRate config Hv Ha
                (SlaveIDs config) [])
      as (probed & E & E').
    exists probed. cbn [app] in *. auto.
Qed.

Lemma scanPortWithBaudRate_bounded_witness :
  (exists devices,
     scanPortWithBaudRate NewScanner bus_station_2 "P1" 9600 scan_p1
     = Some devices
     /\ (List.length devices <= List.length (SlaveIDs scan_p1))%nat
     /\ (SlaveIDs scan_p1 <> [] -> devices <> [])
     /\ (0 < MaxDevices scan_p1 ->
         Z.of_nat (List.length devices) <= MaxDevices scan_p1)
     /\ Forall (fun d => Device d = "P1"%string
                         /\ In (dev_SlaveID d) (SlaveIDs scan_p1)
                         /\ Responsive d
                            = responsive_candidate bus_station_2 "P1" 9600
                                (dev_SlaveID d))
          devices)
  /\ (exists devices,
        scanPortWithBaudRate (SetVerbose NewScanner false) bus_station_2 "P1"
          9600 scan_p1_plain
        = Some devices
        /\ scanPortWithBaudRate NewScanner bus_station_2 "P1" 9600
             scan_p1_plain
           = if hasResponsiveDevice devices then None else Some devices).
Proof.
  split.
  - apply (scanPortWithBaudRate_bounded NewScanner bus_station_2 "P1" 9600
             scan_p1).
    right. reflexivity.
  - apply (scanPortWithBaudRate_bounded NewScanner bus_station_2 "P1" 9600
             scan_p1_plain); reflexivity.
Defined.

Lemma scanPortWithBaudRate_some s w port baudRate config :
  verbose s = false \/ AutoDetectFormat config = true ->
  exists devices, scanPortWithBaudRate s w port baudRate config = Some devices.
Proof.
  intros Hq. unfold scanPortWithBaudRate.
  destruct (scanSlaveIDs_spec s w port baudRate config Hq (SlaveIDs config) [])
    as (probed & E & _). eauto.
Qed.

Lemma no_responsive_device ds :
  hasResponsiveDevice ds = false -> Forall (fun d => Responsive d = false) ds.
Proof.
  unfold hasResponsiveDevice. induction ds as [| d ds IH]; cbn; [constructor |].
  intros H. apply orb_false_iff in H. destruct H as [Hd Hr].
  constructor; auto.
Qed.

Lemma hasResponsiveDevice_app ds ds' :
  hasResponsiveDevice (ds ++ ds')
  = hasResponsiveDevice ds || hasResponsiveDevice ds'.
Proof. unfold hasResponsiveDevice. apply existsb_app. Qed.

(** Rates at which nothing answers are passed over. *)
Lemma scanBaudRates_skips s w port config tail :
  forall before silent devices,
    Forall2 (fun rate ds =>
               scanPortWithBaudRate s w port rate config = Some ds
               /\ hasResponsiveDevice ds = false) before silent ->
    scanBaudRates s w port config (before ++ tail) devices
    = scanBaudRates s w port config tail (devices ++ List.concat silent).
Proof.
  intros before silent devices F. revert devices.
  induction F as [| rate ds before silent [E H] F IH]; intros devices.
  - cbn. rewrite app_nil_r. reflexivity.
  - cbn [app scanBaudRates List.concat]. rewrite E. cbn [bind]. rewrite H.
    destruct ds as [| d ds].
    + cbn [List.length Nat.ltb Nat.leb app]. apply IH.
    + cbn [List.length Nat.ltb Nat.leb]. rewrite IH, <- app_assoc.
      reflexivity.
Qed.

(** X15.  [scanPort] passes over the baud rates at which no probe
    answers and stops at the first rate at which one does: its result
    is the records of the rates passed over, in order, followed by the
    records of that rate, and the rates listed after it are not tried.
    If no rate has an answering probe the result is the records of all
    the rates. *)
Theorem scanPort_stops_at_first_answering_rate
    (s : Scanner) (w : World) (port : string) (config : ScanConfig)
    (before : list Z) (silent : list (list DeviceInfo))
    (last : list DeviceInfo) :
  Forall2 (fun rate ds =>
             scanPortWithBaudRate s w port rate config = Some ds
             /\ hasResponsiveDevice ds = false) before silent ->
  (BaudRates config = before /\ last = []
   \/ exists baudRate after,
        BaudRates config = before ++ baudRate :: after
        /\ scanPortWithBaudRate s w port baudRate config = Some last
        /\ hasResponsiveDevice last = true) ->
  scanPort s w port config = Some (List.concat silent ++ last).
Proof.
  intros F [[E ->] | (baudRate & after & E & B & H)]; unfold scanPort;
    rewrite E.
  - rewrite <- (app_nil_r before).
    rewrite (scanBaudRates_skips s w port config [] before silent [] F).
    cbn. rewrite app_nil_r. reflexivity.
  - rewrite (scanBaudRates_skips s w port config (baudRate :: after)
               before silent [] F).
    cbn [app scanBaudRates]. rewrite B. cbn [bind]. rewrite H.
    destruct last as [| d last]; [discriminate |]. reflexivity.
Qed.

Lemma scanPort_stops_at_first_answering_rate_witness :
  exists silent last,
    scanPort NewScanner bus_19200 "P1" scan_rates
    = Some (List.concat [silent] ++ last)
    /\ hasResponsiveDevice silent = false
    /\ hasResponsiveDevice last = true
    /\ map dev_SlaveID last = [1; 2].
Proof.
  destruct (scanPortWithBaudRate NewScanner bus_19200 "P1" 9600 scan_rates)
    as [silent |] eqn:E1; [| discriminate].
  destruct (scanPortWithBaudRate NewScanner bus_19200 "P1" 19200 scan_rates)
    as [last |] eqn:E2; [| discriminate].
  assert (H1 : hasResponsiveDevice silent = false)
    by (vm_compute in E1; apply Some_eq in E1; subst silent; reflexivity).
  assert (H2 : hasResponsiveDevice last = true /\ map dev_SlaveID last = [1; 2])
    by (vm_compute in E2; apply Some_eq in E2; subst last; split; reflexivity).
  exists silent, last. split; [| tauto].
  apply (scanPort_stops_at_first_answering_rate NewScanner bus_19200 "P1"
           scan_rates [9600] [silent] last).
  - constructor; [split; assumption | constructor].
  - right. exists 19200, [38400; 115200]. split; [reflexivity |]. tauto.
Defined.

Lemma scanBaudRates_some s w port config :
  verbose s = false \/ AutoDetectFormat config = true ->
  forall rates devices,
  exists probed,
    scanBaudRates s w port config rates devices = Some (devices ++ probed).
Proof.
  intros Hq. induction rates as [| baudRate rest IH]; intros devices.
  - exists []. cbn. rewrite app_nil_r. reflexivity.
  - cbn [scanBaudRates].
    destruct (scanPortWithBaudRate_some s w port baudRate config Hq) as [ds ->].
    cbn [bind].
    destruct (Nat.ltb 0 (List.length ds)).
    + destruct (hasResponsiveDevice ds).
      * exists ds. reflexivity.
      * destruct (IH (devices ++ ds)) as [probed ->].
        exists (ds ++ probed). rewrite app_assoc. reflexivity.
    + apply IH.
Qed.

Lemma scanPort_some s w port config :
  verbose s = false \/ AutoDetectFormat config = true ->
  exists devices, scanPort s w port config = Some devices.
Proof.
  intros Hq. unfold scanPort.
  destruct (scanBaudRates_some s w port config Hq (BaudRates config) [])
    as [probed ->]. eauto.
Qed.

Lemma record_device_consistent config r d :
  counts_consistent config r ->
  counts_consistent config (record_device config r d)
  /\ res_Config (record_device config r d) = res_Config r.
Proof.
  intros (C & S & U). split; [| reflexivity].
  unfold counts_consistent, record_device.
  cbn [Successful TotalTested Devices].
  destruct (SkipUnresponsive config) eqn:Sk; cbn [negb orb].
  - destruct (S eq_refl) as [F L].
    destruct (Responsive d) eqn:R.
    + split; [lia |]. split; [| discriminate]. intros _. split.
      * apply Forall_app. split; [exact F |]. constructor; [exact R | constructor].
      * rewrite length_app. cbn [List.length]. lia.
    + split; [lia |]. split; [| discriminate]. intros _. split; assumption.
  - destruct (U eq_refl) as [L G].
    assert (LA : Z.of_nat (List.length (Devices r ++ [d])) = TotalTested r + 1)
      by (rewrite length_app; cbn [List.length]; lia).
    unfold getResponsiveDevices in *. rewrite filter_app. cbn [filter].
    destruct (Responsive d) eqn:R.
    + split; [lia |]. split; [discriminate |]. intros _. split; [exact LA |].
      rewrite length_app. cbn [List.length]. lia.
    + split; [lia |]. split; [discriminate |]. intros _. split; [exact LA |].
      rewrite app_nil_r. exact G.
Qed.

Lemma fold_record_consistent config ds : forall r,
  counts_consistent config r ->
  counts_consistent config (fold_left (record_device config) ds r)
  /\ res_Config (fold_left (record_device config) ds r) = res_Config r.
Proof.
  induction ds as [| d rest IH]; intros r H; cbn [fold_left]; [auto |].
  destruct (record_device_consistent config r d H) as [H' E'].
  destruct (IH _ H') as [H'' E'']. split; [exact H'' | congruence].
Qed.

(** What a scan of ports returns, when it returns, is consistent. *)
Lemma scanPorts_consistent s w config : forall ports r r',
  counts_consistent config r ->
  scanPorts s w config ports r = Some r' ->
  counts_consistent config r' /\ res_Config r' = res_Config r.
Proof.
  induction ports as [| port rest IH]; intros r r' H.
  - cbn. intros E. apply Some_eq in E. subst r'. auto.
  - cbn [scanPorts].
    destruct (scanPort s w port config) as [ds |]; [| discriminate].
    cbn [bind].
    destruct (fold_record_consistent config ds r H) as [H' E'].
    destruct (MaxDevices config
              <=? Z.of_nat (List.length
                              (Devices (fold_left (record_device config) ds r)))).
    + intros E. apply Some_eq in E. subst r'. auto.
    + intros E. destruct (IH _ _ H' E) as [H'' E''].
      split; [exact H'' | congruence].
Qed.

Lemma scanPorts_some s w config :
  verbose s = false \/ AutoDetectFormat config = true ->
  forall ports r, exists r', scanPorts s w config ports r = Some r'.
Proof.
  intros Hq. induction ports as [| port rest IH]; intros r.
  - exists r. reflexivity.
  - cbn [scanPorts].
    destruct (scanPort_some s w port config Hq) as [ds ->]. cbn [bind].
    destruct (MaxDevices config <=? _); [eauto | apply IH].
Qed.

Lemma detectSerialPorts_cases w :
  match GetPortsList w with
  | Ok ports =>
      exists l, detectSerialPorts w = Ok l
                /\ (l = ports \/ l = filter isLikelyRS485Port ports)
  | Err e => detectSerialPorts w = Err e
  end.
Proof.
  unfold detectSerialPorts. destruct (GetPortsList w) as [ports | e];
    [| reflexivity].
  destruct (Nat.eqb _ 0); eauto.
Qed.

(** The log line at the level of a port and of a list of ports. *)
Lemma scanBaudRates_loud s w port config :
  verbose s = true -> AutoDetectFormat config = false ->
  forall rates devices,
  exists probed,
    scanBaudRates (SetVerbose s false) w port config rates devices
    = Some (devices ++ probed)
    /\ scanBaudRates s w port config rates devices
       = if hasResponsiveDevice probed then None
         else Some (devices ++ probed).
Proof.
  intros Hv Ha. induction rates as [| baudRate rest IH]; intros devices.
  - exists []. cbn. rewrite app_nil_r. auto.
  - cbn [scanBaudRates]. unfold scanPortWithBaudRate.
    destruct (scanSlaveIDs_loud s w port baudRate config Hv Ha
                (SlaveIDs config) [])
      as (ds & -> & ->). cbn [app bind].
    destruct (hasResponsiveDevice ds) eqn:H.
    + assert (N : Nat.ltb 0 (List.length ds) = true).
      { destruct ds; [discriminate | reflexivity]. }
      rewrite N. exists ds. rewrite H. auto.
    + cbn [bind]. rewrite H.
      destruct (Nat.ltb 0 (List.length ds)).
      * destruct (IH (devices ++ ds)) as (probed & E & E').
        exists (ds ++ probed). rewrite E, E', hasResponsiveDevice_app, H.
        rewrite <- app_assoc. auto.
      * apply IH.
Qed.

Lemma Successful_fold config ds : forall r,
  Successful r <= Successful (fold_left (record_device config) ds r)
  /\ (hasResponsiveDevice ds = true ->
      Successful r < Successful (fold_left (record_device config) ds r))
  /\ (hasResponsiveDevice ds = false ->
      Successful (fold_left (record_device config) ds r) = Successful r).
Proof.
  unfold hasResponsiveDevice.
  induction ds as [| d ds IH]; intros r; cbn [fold_left existsb].
  - split; [lia |]. split; [discriminate | reflexivity].
  - destruct (IH (record_device config r d)) as (M & T & F).
    assert (E : Successful (record_device config r d)
                = if Responsive d then Successful r + 1 else Successful r)
      by reflexivity.
    destruct (Responsive d); cbn [orb].
    + split; [lia |]. split; [lia | discriminate].
    + rewrite E in *. split; [exact M |]. split; [exact T | exact F].
Qed.

Lemma Successful_scanPorts s w config : forall ports r r',
  scanPorts s w config ports r = Some r' -> Successful r <= Successful r'.
Proof.
  induction ports as [| port rest IH]; intros r r'.
  - cbn. intros E. apply Some_eq in E. subst. lia.
  - cbn [scanPorts].
    destruct (scanPort s w port config) as [ds |]; [| discriminate].
    cbn [bind]. destruct (Successful_fold config ds r) as (M & _).
    destruct (MaxDevices config <=? _).
    + intros E. apply Some_eq in E. subst. exact M.
    + intros E. apply IH in E. lia.
Qed.

Lemma scanPorts_loud s w config :
  verbose s = true -> AutoDetectFormat config = false ->
  forall ports r,
  exists r',
    scanPorts (SetVerbose s false) w config ports r = Some r'
    /\ scanPorts s w config ports r
       = if Successful r <? Successful r' then None else Some r'.
Proof.
  intros Hv Ha. induction ports as [| port rest IH]; intros r.
  - exists r. cbn. rewrite Z.ltb_irrefl. auto.
  - cbn [scanPorts]. unfold scanPort.
    destruct (scanBaudRates_loud s w port config Hv Ha (BaudRates config) [])
      as (ds & -> & ->). cbn [app bind].
    destruct (Successful_fold config ds r) as (M & T & F).
    destruct (hasResponsiveDevice ds) eqn:H.
    + specialize (T eq_refl).
      destruct (MaxDevices config <=? _) eqn:C.
      * eexists. split; [reflexivity |].
        destruct (Z.ltb_spec (Successful r)
                    (Successful (fold_left (record_device config) ds r)));
          [reflexivity | lia].
      * destruct (IH (fold_left (record_device config) ds r))
          as (r' & E & _).
        exists r'. split; [exact E |].
        pose proof (Successful_scanPorts _ _ _ _ _ _ E) as M'.
        destruct (Z.ltb_spec (Successful r) (Successful r'));
          [reflexivity | lia].
    + specialize (F eq_refl). cbn [bind].
      destruct (MaxDevices config <=? _) eqn:C.
      * eexists. split; [reflexivity |]. rewrite F, Z.ltb_irrefl. reflexivity.
      * destruct (IH (fold_left (record_device config) ds r))
          as (r' & E & E').
        exists r'. split; [exact E |]. rewrite E', F. reflexivity.
Qed.

(** X16.  For a quiet scanner, or when the encoding is detected,
    [ScanDevices] never panics, and returns an error exactly when the
    configuration names no port and the ports of the host cannot be
    listed; the error then carries the text of that failure, and failing
    probes never fail the scan.  For a verbose scanner without
    detection of the encoding, [ScanDevices] does what the quiet
    scanner does as long as no probe answers, and panics as soon as one
    does. *)
Theorem ScanDevices_fails_only_on_enumeration
    (s : Scanner) (w : World) (config : ScanConfig) :
  (verbose s = false \/ AutoDetectFormat config = true ->
   exists outcome,
     ScanDevices s w config = Some outcome
     /\ ((exists msg, outcome = Err msg) <->
         SerialPorts config = [] /\ exists e, GetPortsList w = Err e)
     /\ (forall e, SerialPorts config = [] -> GetPortsList w = Err e ->
           outcome = Err ("自動檢測串口失敗: " ++ e)%string))
  /\ (verbose s = true -> AutoDetectFormat config = false ->
      exists outcome,
        ScanDevices (SetVerbose s false) w config = Some outcome
        /\ ScanDevices s w config
           = match outcome with
             | Ok r => if 0 <? Successful r then None else Some (Ok r)
             | Err msg => Some (Err msg)
             end).
Proof.
  unfold ScanDevices. split.
  - intros Hq.
    destruct (SerialPorts config) as [| p ps] eqn:SP;
      cbn [List.length Nat.eqb].
    + pose proof (detectSerialPorts_cases w) as D.
      destruct (GetPortsList w) as [ports | e] eqn:G.
      * destruct D as (l & -> & _).
        destruct (scanPorts_some s w config Hq l
                    (mkScanResult [] 0 0 config)) as (r & ->).
        cbn [bind]. eexists. split; [reflexivity |]. split.
        -- split; [intros [msg E]; discriminate |].
           intros [_ [e E]]. discriminate.
        -- intros e _ E. discriminate.
      * rewrite D. eexists. split; [reflexivity |]. split.
        -- split; eauto.
        -- intros e' _ E. injection E as <-. reflexivity.
    + destruct (scanPorts_some s w config Hq (p :: ps)
                  (mkScanResult [] 0 0 config)) as (r & ->).
      cbn [bind]. eexists. split; [reflexivity |]. split.
      * split; [intros [msg E]; discriminate |]. intros [E _]. discriminate.
      * intros e E. discriminate.
  - intros Hv Ha.
    destruct (if Nat.eqb (List.length (SerialPorts config)) 0
              then detectSerialPorts w else Ok (SerialPorts config))
      as [ports | e].
    + destruct (scanPorts_loud s w config Hv Ha ports
                  (mkScanResult [] 0 0 config)) as (r & -> & ->).
      cbn [bind Successful]. exists (Ok r). split; [reflexivity |].
      destruct (0 <? Successful r); reflexivity.
    + eexists. split; reflexivity.
Qed.

Lemma ScanDevices_fails_only_on_enumeration_witness :
  (exists outcome,
     ScanDevices NewScanner bus_station_2 scan_p1 = Some outcome
     /\ ((exists msg, outcome = Err msg) <->
         SerialPorts scan_p1 = []
         /\ exists e, GetPortsList bus_station_2 = Err e)
     /\ (forall e, SerialPorts scan_p1 = [] ->
           GetPortsList bus_station_2 = Err e ->
           outcome = Err ("自動檢測串口失敗: " ++ e)%string))
  /\ (exists outcome,
        ScanDevices (SetVerbose NewScanner false) bus_station_2 scan_p1_plain
        = Some outcome
        /\ ScanDevices NewScanner bus_station_2 scan_p1_plain
           = match outcome with
             | Ok r => if 0 <? Successful r then None else Some (Ok r)
             | Err msg => Some (Err msg)
             end).
Proof.
  split.
  - apply (ScanDevices_fails_only_on_enumeration NewScanner bus_station_2
             scan_p1).
    right. reflexivity.
  - apply (ScanDevices_fails_only_on_enumeration NewScanner bus_station_2
             scan_p1_plain); reflexivity.
Defined.

(** The default scanner on the spec's example bus, without detection of
    the encoding: the probe of station 2 answers and the scan panics. *)
Example ScanDevices_plain_panics :
  ScanDevices NewScanner bus_station_2 scan_p1_plain = None
  /\ (exists r,
        ScanDevices (SetVerbose NewScanner false) bus_station_2 scan_p1_plain
        = Some (Ok r)
        /\ Successful r = 1).
Proof.
  split; [vm_compute; reflexivity |].
  eexists. split; [vm_compute; reflexivity | reflexivity].
Qed.

(** X17.  In the result of a successful scan the configuration is the one
    given and the number of responsive probes is at most the number of
    probes.  When unresponsive devices are skipped, every device kept
    is responsive and their number is the count of successes;
    otherwise the number of devices kept is the number of probes and
    the responsive ones among them number the count of successes. *)
Theorem ScanDevices_counts
    (s : Scanner) (w : World) (config : ScanConfig) (r : ScanResult) :
  ScanDevices s w config = Some (Ok r) ->
  res_Config r = config
  /\ 0 <= Successful r <= TotalTested r
  /\ (SkipUnresponsive config = true ->
      Forall (fun d => Responsive d = true) (Devices r)
      /\ Z.of_nat (List.length (Devices r)) = Successful r)
  /\ (SkipUnresponsive config = false ->
      Z.of_nat (List.length (Devices r)) = TotalTested r
      /\ Z.of_nat (List.length (getResponsiveDevices (Devices r)))
         = Successful r).
Proof.
  unfold ScanDevices.
  assert (C0 : counts_consistent config (mkScanResult [] 0 0 config)).
  { unfold counts_consistent. cbn. repeat split; auto; lia. }
  destruct (if Nat.eqb (List.length (SerialPorts config)) 0
            then detectSerialPorts w else Ok (SerialPorts config))
    as [ports | e]; [| discriminate].
  destruct (scanPorts s w config ports (mkScanResult [] 0 0 config))
    as [r' |] eqn:E; [| discriminate].
  destruct (scanPorts_consistent s w config ports _ r' C0 E) as [H E'].
  cbn [bind]. intros Q. apply Some_eq in Q. injection Q as <-.
  split; [exact E' |]. exact H.
Qed.

Lemma ScanDevices_counts_witness :
  exists r,
    ScanDevices NewScanner bus_station_2 scan_p1 = Some (Ok r)
    /\ TotalTested r = 2 /\ Successful r = 1
    /\ map dev_SlaveID (Devices r) = [2]
    /\ res_Config r = scan_p1
    /\ 0 <= Successful r <= TotalTested r
    /\ (SkipUnresponsive scan_p1 = true ->
        Forall (fun d => Responsive d = true) (Devices r)
        /\ Z.of_nat (List.length (Devices r)) = Successful r)
    /\ (SkipUnresponsive scan_p1 = false ->
        Z.of_nat (List.length (Devices r)) = TotalTested r
        /\ Z.of_nat (List.length (getResponsiveDevices (Devices r)))
           = Successful r).
Proof.
  eexists. split; [vm_compute; reflexivity |].
  split; [reflexivity |]. split; [reflexivity |]. split; [reflexivity |].
  apply (ScanDevices_counts NewScanner bus_station_2 scan_p1).
  vm_compute. reflexivity.
Defined.

Lemma scanPort_auto sc w port :
  exists d,
    scanPort sc w port autoScanConfig = Some [d]
    /\ Responsive d = responsive_candidate w port 9600 22
    /\ Device d = port /\ dev_SlaveID d = 22
    /\ (DataFormat d = DecimalFormat \/ DataFormat d = FloatFormat).
Proof.
  unfold scanPort.
  cbn [BaudRates autoScanConfig GetQuickScanConfig scanBaudRates].
  rewrite scanPortWithBaudRate_auto.
  destruct (testDevice_outcome w port 9600 22 autoScanConfig)
    as (d & -> & R & P & S & F & _).
  exists d. split; [| auto].
  cbn [bind List.length Nat.ltb Nat.leb hasResponsiveDevice existsb app].
  destruct (Responsive d); reflexivity.
Qed.


Lemma record_device_auto w all result d :
  Forall (auto_device w all) (Devices result) ->
  (Responsive d = true -> auto_device w all d) ->
  Forall (auto_device w all) (Devices (record_device autoScanConfig result d)).
Proof.
  intros F H. unfold record_device.
  cbn [SkipUnresponsive autoScanConfig GetQuickScanConfig negb orb Devices].
  destruct (Responsive d) eqn:R; [| exact F].
  apply Forall_app. split; [exact F |]. constructor; [auto | constructor].
Qed.

Lemma scanPorts_auto sc w all : forall ports result,
  incl ports all ->
  Forall (auto_device w all) (Devices result) ->
  exists r,
    scanPorts sc w autoScanConfig ports result = Some r
    /\ Forall (auto_device w all) (Devices r).
Proof.
  induction ports as [| port rest IH]; intros result I F.
  - exists result. cbn. auto.
  - cbn [scanPorts].
    destruct (scanPort_auto sc w port) as (d & -> & R & P & S & Fm).
    cbn [bind fold_left].
    assert (F' : Forall (auto_device w all)
                   (Devices (record_device autoScanConfig result d))).
    { apply record_device_auto; [exact F |]. intros Rt.
      unfold auto_device. rewrite P, S, <- R, Rt.
      repeat split; auto. apply I. left. reflexivity. }
    destruct (MaxDevices autoScanConfig <=? _).
    + eexists. split; [reflexivity | exact F'].
    + apply IH; [| exact F']. intros x Hx. apply I. right. exact Hx.
Qed.

(** X18.  A configuration returned by [AutoConfigure] always has station 0x16,
    a read interval of one second and the Decimal or Float encoding;
    its device is one of the ports detected, on which station 0x16
    answers at 9600 baud; [NewPressureMeter] accepts it once the
    connection succeeds. *)
Theorem AutoConfigure_returns_station_22
    (sc : Scanner) (w : World) (config : Config) :
  AutoConfigure sc w = Some (Ok config) ->
  cfg_SlaveID config = 22
  /\ cfg_ReadInterval config = Second
  /\ (cfg_DataFormat config = DecimalFormat
      \/ cfg_DataFormat config = FloatFormat)
  /\ responsive_candidate w (cfg_Device config) 9600 22 = true
  /\ (exists ports, detectSerialPorts w = Ok ports
                    /\ In (cfg_Device config) ports)
  /\ NewPressureMeter config (Ok tt)
     = Ok (fresh (mkMeter 22 (cfg_DataFormat config))).
Proof.
  unfold AutoConfigure, ScanDevices.
  cbn [SerialPorts autoScanConfig GetQuickScanConfig List.length Nat.eqb].
  destruct (detectSerialPorts w) as [ports | e] eqn:D; cbn [bind];
    [| discriminate].
  destruct (scanPorts_auto sc w ports ports (mkScanResult [] 0 0 autoScanConfig))
    as (r & -> & F).
  { apply incl_refl. }
  { constructor. }
  cbn [bind].
  assert (G : Forall (auto_device w ports) (getResponsiveDevices (Devices r))).
  { unfold getResponsiveDevices. apply Forall_forall. intros x Hx.
    apply filter_In in Hx. rewrite Forall_forall in F. apply F. tauto. }
  destruct (getResponsiveDevices (Devices r)) as [| d rest]; [discriminate |].
  intros E. apply Some_eq in E. injection E as <-.
  inversion G as [| ? ? (R & S & I & C & Fm) _]. subst.
  cbn [cfg_SlaveID cfg_ReadInterval cfg_DataFormat cfg_Device].
  split; [exact S |]. split; [reflexivity |]. split; [exact Fm |].
  split; [exact C |]. split; [eauto |].
  rewrite S. apply (NewPressureMeter_fresh (mkConfig (Device d) 22 Second (DataFormat d))).
  cbn. lia.
Qed.

Lemma scanPorts_auto_finds sc w silent port rest result :
  Forall (fun p => responsive_candidate w p 9600 22 = false) silent ->
  responsive_candidate w port 9600 22 = true ->
  Devices result = [] ->
  exists r d,
    scanPorts sc w autoScanConfig (silent ++ port :: rest) result = Some r
    /\ Devices r = [d]
    /\ Device d = port /\ dev_SlaveID d = 22
    /\ testDevice w port 9600 22 autoScanConfig = Some d.
Proof.
  intros Hs Hp. revert result.
  induction silent as [| s silent IH]; intros result Hd.
  - cbn [app scanPorts]. unfold scanPort.
    cbn [BaudRates autoScanConfig GetQuickScanConfig scanBaudRates].
    rewrite scanPortWithBaudRate_auto.
    destruct (testDevice_outcome w port 9600 22 autoScanConfig)
      as (d & T & R & P & S & F). rewrite T.
    rewrite Hp in R.
    cbn [bind List.length Nat.ltb Nat.leb hasResponsiveDevice existsb app].
    rewrite R. cbn [orb bind fold_left].
    unfold record_device. rewrite R.
    cbn [SkipUnresponsive autoScanConfig GetQuickScanConfig negb orb Devices
         MaxDevices].
    rewrite Hd. cbn [app List.length Z.of_nat Z.leb Z.compare].
    change (1 <=? Z.of_nat 1) with true. cbv iota.
    do 2 eexists. split; [reflexivity |]. cbn. auto.
  - inversion Hs as [| ? ? Hs1 Hs2]; subst.
    cbn [app scanPorts].
    destruct (scanPort_silent sc w s Hs1) as (d & -> & Hr).
    cbn [bind fold_left].
    pose proof (record_device_silent result d Hr) as E. rewrite Hd in E.
    rewrite E. cbn [List.length Z.of_nat].
    change (MaxDevices autoScanConfig <=? 0) with false. cbv iota.
    apply IH; assumption.
Qed.

(** X19.  If station 0x16 answers at 9600 baud on one of the ports detected,
    [AutoConfigure] returns the configuration for the first such port,
    with the encoding detected by its probe. *)
Theorem AutoConfigure_finds_first_station_22
    (sc : Scanner) (w : World) (silent : list string) (port : string) (rest : list string) :
  detectSerialPorts w = Ok (silent ++ port :: rest) ->
  Forall (fun p => responsive_candidate w p 9600 22 = false) silent ->
  responsive_candidate w port 9600 22 = true ->
  exists d,
    testDevice w port 9600 22 autoScanConfig = Some d
    /\ AutoConfigure sc w
       = Some (Ok (mkConfig port 22 Second (DataFormat d))).
Proof.
  intros D Hs Hp. unfold AutoConfigure, ScanDevices.
  cbn [SerialPorts autoScanConfig GetQuickScanConfig List.length Nat.eqb].
  rewrite D.
  destruct (scanPorts_auto_finds sc w silent port rest
              (mkScanResult [] 0 0 autoScanConfig) Hs Hp eq_refl)
    as (r & d & -> & Hd & P & S & T).
  cbn [bind]. exists d. split; [exact T |].
  rewrite Hd. unfold getResponsiveDevices. cbn [filter].
  destruct (testDevice_outcome w port 9600 22 autoScanConfig)
    as (d' & T' & R & _). rewrite T in T'. apply Some_eq in T'. subst d'.
  rewrite R, Hp. rewrite P, S. reflexivity.
Qed.


Lemma AutoConfigure_finds_first_station_22_witness :
  exists d,
    testDevice bus_station_22 "/dev/ttyUSB1" 9600 22 autoScanConfig = Some d
    /\ AutoConfigure NewScanner bus_station_22
       = Some (Ok (mkConfig "/dev/ttyUSB1" 22 Second (DataFormat d))).
Proof.
  apply (AutoConfigure_finds_first_station_22 NewScanner bus_station_22
           ["/dev/ttyUSB0"%string] "/dev/ttyUSB1" []).
  - reflexivity.
  - constructor; [reflexivity | constructor].
  - reflexivity.
Defined.

Lemma AutoConfigure_returns_station_22_witness :
  cfg_SlaveID (mkConfig "/dev/ttyUSB1" 22 Second DecimalFormat) = 22
  /\ cfg_ReadInterval (mkConfig "/dev/ttyUSB1" 22 Second DecimalFormat) = Second
  /\ (DecimalFormat = DecimalFormat \/ DecimalFormat = FloatFormat)
  /\ responsive_candidate bus_station_22 "/dev/ttyUSB1" 9600 22 = true
  /\ (exists ports, detectSerialPorts bus_station_22 = Ok ports
                    /\ In "/dev/ttyUSB1"%string ports)
  /\ NewPressureMeter (mkConfig "/dev/ttyUSB1" 22 Second DecimalFormat) (Ok tt)
     = Ok (fresh (mkMeter 22 DecimalFormat)).
Proof.
  apply (AutoConfigure_returns_station_22 NewScanner bus_station_22
           (mkConfig "/dev/ttyUSB1" 22 Second DecimalFormat)).
  vm_compute. reflexivity.
Defined.

Lemma AutoConfigure_needs_station_22_witness :
  exists msg, AutoConfigure NewScanner bus_station_1 = Some (Err msg).
Proof.
  apply (AutoConfigure_needs_station_22 NewScanner bus_station_1).
  intros port. unfold responsive_candidate, bus_station_1. cbn [probe].
  rewrite andb_false_r. reflexivity.
Defined.

Lemma lower_ascii_idem (c : ascii) : lower_ascii (lower_ascii c) = lower_ascii c.
Proof.
  destruct c as [[] [] [] [] [] [] [] []]; reflexivity.
Qed.

Lemma ToLower_idem (s : string) : ToLower (ToLower s) = ToLower s.
Proof.
  induction s as [| c s IH]; cbn; [reflexivity |].
  rewrite lower_ascii_idem, IH. reflexivity.
Qed.


Lemma lower_ascii_ascii (c : ascii) :
  Nat.ltb (nat_of_ascii c) 128 = true ->
  Nat.ltb (nat_of_ascii (lower_ascii c)) 128 = true.
Proof.
  destruct c as [[] [] [] [] [] [] [] []]; vm_compute; auto.
Qed.

Lemma ToLower_ascii (s : string) :
  is_ascii s = true -> is_ascii (ToLower s) = true.
Proof.
  induction s as [| c s IH]; cbn [is_ascii ToLower]; [reflexivity |].
  intros H. apply andb_prop in H. destruct H as [Hc Hs].
  rewrite (lower_ascii_ascii c Hc), (IH Hs). reflexivity.
Qed.

(** X21.  For a port name in ASCII: the name is taken for an RS485
    adapter exactly when, in lower case, it contains one of the eight
    adapter patterns; the list of excluded names never changes the
    answer, and neither does the case of the name, whose lower-case
    form is ASCII again. *)
Theorem isLikelyRS485Port_case_insensitive (port : string) :
  is_ascii port = true ->
  isLikelyRS485Port port
  = existsb (fun pattern => Contains (ToLower port) pattern) rs485_patterns
  /\ is_ascii (ToLower port) = true
  /\ isLikelyRS485Port (ToLower port) = isLikelyRS485Port port.
Proof.
  intros A.
  assert (E : forall p, isLikelyRS485Port p
                        = existsb (fun pattern => Contains (ToLower p) pattern)
                            rs485_patterns).
  { intros p. unfold isLikelyRS485Port. cbv zeta.
    match goal with
    | |- (if ?b then true else if ?e then false else false) = ?r =>
        change r with b; destruct b; [reflexivity |]; destruct e; reflexivity
    end. }
  split; [apply E |]. split; [apply ToLower_ascii; exact A |].
  rewrite !E, ToLower_idem. reflexivity.
Qed.

Lemma isLikelyRS485Port_case_insensitive_witness :
  isLikelyRS485Port "/dev/ttyUSB0"
  = existsb (fun pattern => Contains (ToLower "/dev/ttyUSB0") pattern)
      rs485_patterns
  /\ is_ascii (ToLower "/dev/ttyUSB0") = true
  /\ isLikelyRS485Port (ToLower "/dev/ttyUSB0")
     = isLikelyRS485Port "/dev/ttyUSB0".
Proof.
  apply (isLikelyRS485Port_case_insensitive "/dev/ttyUSB0"). reflexivity.
Defined.

(** X22.  When the ports of the host can be listed, [detectSerialPorts]
    returns the ports that look like RS485 adapters if there are any
    and all the ports otherwise: always ports of the host, and at
    least one if the host has one. *)
Theorem detectSerialPorts_falls_back (w : World) (ports : list string) :
  GetPortsList w = Ok ports ->
  exists detected,
    detectSerialPorts w = Ok detected
    /\ incl detected ports
    /\ (ports <> [] -> detected <> [])
    /\ (existsb isLikelyRS485Port ports = true ->
        detected = filter isLikelyRS485Port ports)
    /\ (existsb isLikelyRS485Port ports = false -> detected = ports).
Proof.
  intros G. unfold detectSerialPorts. rewrite G.
  destruct (filter isLikelyRS485Port ports) as [| p valid] eqn:F;
    cbn [List.length Nat.eqb].
  - exists ports. split; [reflexivity |]. split; [apply incl_refl |].
    split; [auto |]. split; [| reflexivity].
    intros H. apply existsb_exists in H. destruct H as (x & Hx & Lx).
    assert (I : In x (filter isLikelyRS485Port ports))
      by (apply filter_In; auto).
    rewrite F in I. contradiction.
  - exists (p :: valid). split; [reflexivity |]. split.
    + rewrite <- F. intros x Hx. apply filter_In in Hx. tauto.
    + split; [discriminate |]. split; [reflexivity |].
      intros H. assert (I : In p (filter isLikelyRS485Port ports))
        by (rewrite F; left; reflexivity).
      apply filter_In in I. destruct I as [Ip Lp].
      assert (T : existsb isLikelyRS485Port ports = true)
        by (apply existsb_exists; eauto).
      congruence.
Qed.

Lemma detectSerialPorts_falls_back_witness :
  exists detected,
    detectSerialPorts
      (mkWorld (Ok ["/dev/cu.Bluetooth-Modem"%string; "/dev/ttyUSB0"%string])
         (fun _ _ _ => ReadFailed "") 0)
    = Ok detected
    /\ incl detected ["/dev/cu.Bluetooth-Modem"%string; "/dev/ttyUSB0"%string]
    /\ (["/dev/cu.Bluetooth-Modem"%string; "/dev/ttyUSB0"%string] <> []
        -> detected <> [])
    /\ (existsb isLikelyRS485Port
          ["/dev/cu.Bluetooth-Modem"%string; "/dev/ttyUSB0"%string] = true ->
        detected
        = filter isLikelyRS485Port
            ["/dev/cu.Bluetooth-Modem"%string; "/dev/ttyUSB0"%string])
    /\ (existsb isLikelyRS485Port
          ["/dev/cu.Bluetooth-Modem"%string; "/dev/ttyUSB0"%string] = false ->
        detected = ["/dev/cu.Bluetooth-Modem"%string; "/dev/ttyUSB0"%string]).
Proof.
  apply (detectSerialPorts_falls_back
           (mkWorld (Ok ["/dev/cu.Bluetooth-Modem"%string; "/dev/ttyUSB0"%string])
              (fun _ _ _ => ReadFailed "") 0)).
  reflexivity.
Defined.

(** X23.  For bounds within a byte, [generateSlaveIDRange] lists exactly the
    numbers from the first to the last bound, each once; from 1 to 247
    these are exactly the stations [IsValidSlaveID] accepts. *)
Theorem generateSlaveIDRange_covers (start stop : Z) :
  0 <= start -> stop <= 255 ->
  (forall x, In x (generateSlaveIDRange start stop) <-> start <= x <= stop)
  /\ List.length (generateSlaveIDRange start stop)
     = Z.to_nat (stop - start + 1)
  /\ NoDup (generateSlaveIDRange start stop)
  /\ (start = 1 -> stop = 247 ->
      forall x, In x (generateSlaveIDRange start stop)
                <-> IsValidSlaveID x = true).
Proof.
  intros _ _.
  assert (M : forall x, In x (generateSlaveIDRange start stop)
                        <-> start <= x <= stop).
  { intros x. unfold generateSlaveIDRange. rewrite in_map_iff. split.
    - intros (i & <- & Hi). apply in_seq in Hi. lia.
    - intros H. exists (Z.to_nat (x - start)). split; [lia |].
      apply in_seq. lia. }
  split; [apply M |]. split; [| split].
  - unfold generateSlaveIDRange. rewrite length_map, length_seq. reflexivity.
  - unfold generateSlaveIDRange. apply Injective_map_NoDup.
    + intros i j H. lia.
    + apply seq_NoDup.
  - intros -> -> x. rewrite M.
    unfold IsValidSlaveID, ModbusMinSlaveID, ModbusMaxSlaveID.
    rewrite andb_true_iff, !Z.leb_le. reflexivity.
Qed.

Lemma generateSlaveIDRange_covers_witness :
  (forall x, In x (generateSlaveIDRange 1 247) <-> 1 <= x <= 247)
  /\ List.length (generateSlaveIDRange 1 247) = Z.to_nat (247 - 1 + 1)
  /\ NoDup (generateSlaveIDRange 1 247)
  /\ (1 = 1 -> 247 = 247 ->
      forall x, In x (generateSlaveIDRange 1 247) <-> IsValidSlaveID x = true).
Proof.
  apply (generateSlaveIDRange_covers 1 247); lia.
Defined.

(** X24.  [UnmarshalText] of [MarshalText] gives back the encoding for Decimal
    and Float; every other value is written as "unknown", which
    [UnmarshalText] rejects. *)
Theorem DataFormatType_text_round_trip (dft : DataFormatType) :
  UnmarshalText (MarshalText dft)
  = if (dft =? DecimalFormat) || (dft =? FloatFormat) then Ok dft
    else Err "unknown data format: unknown".
Proof.
  unfold MarshalText, DataFormatType_String.
  destruct (Z.eqb_spec dft DecimalFormat) as [-> | ND]; [reflexivity |].
  destruct (Z.eqb_spec dft FloatFormat) as [-> | NF]; reflexivity.
Qed.

(** X25.  [NewPressureMeter] returns a session exactly when [IsValidSlaveID]
    accepts the station and the connection succeeds. *)
Theorem NewPressureMeter_ok_iff (config : Config) (connect : result unit) :
  (exists pm, NewPressureMeter config connect = Ok pm)
  <-> IsValidSlaveID (cfg_SlaveID config) = true /\ connect = Ok tt.
Proof.
  unfold NewPressureMeter, IsValidSlaveID, ModbusMinSlaveID, ModbusMaxSlaveID.
  rewrite andb_true_iff, !Z.leb_le.
  destruct (Z.ltb_spec (cfg_SlaveID config) 1); cbn [orb].
  - split; [intros [pm E]; discriminate | lia].
  - destruct (Z.ltb_spec 247 (cfg_SlaveID config)).
    + split; [intros [pm E]; discriminate | lia].
    + destruct connect as [[] | err].
      * split; [intros _; split; [lia | reflexivity] | eauto].
      * split; [intros [pm E]; discriminate | intros [_ E]; discriminate].
Qed.

(** X26.  [validateConfig] accepts a configuration exactly when its device
    path is not empty, [IsValidSlaveID] accepts its station and its
    read interval is at least 100ms. *)
Theorem validateConfig_accepts_iff (config : Config) :
  validateConfig config = None
  <-> cfg_Device config <> ""%string
      /\ IsValidSlaveID (cfg_SlaveID config) = true
      /\ 100 * Millisecond <= cfg_ReadInterval config.
Proof.
  unfold validateConfig, IsValidSlaveID, ModbusMinSlaveID, ModbusMaxSlaveID.
  rewrite andb_true_iff, !Z.leb_le.
  destruct (String.eqb_spec (cfg_Device config) "") as [E | N].
  - split; [discriminate | intros [H _]; contradiction].
  - destruct (Z.ltb_spec (cfg_SlaveID config) 1); cbn [orb].
    + split; [discriminate | lia].
    + destruct (Z.ltb_spec 247 (cfg_SlaveID config)).
      * split; [discriminate | lia].
      * destruct (Z.ltb_spec (cfg_ReadInterval config) (100 * Millisecond)).
        -- split; [discriminate | lia].
        -- split; [intros _; repeat split; auto; lia | reflexivity].
Qed.

(** X27.  [mergeConfig] never clears a device path, a station or a read
    interval that was set.  The encoding is always taken from the
    source merged, and attributed to it: merging a source that sets
    nothing changes nothing but the encoding, which becomes Decimal. *)
Theorem mergeConfig_keeps_what_is_set
    (info : ConfigInfo) (source : Config) (sourceType : ConfigSource) :
  let merged := mergeConfig info source sourceType in
  (cfg_Device (info_Config info) <> ""%string ->
   cfg_Device (info_Config merged) <> ""%string)
  /\ (cfg_SlaveID (info_Config info) <> 0 ->
      cfg_SlaveID (info_Config merged) <> 0)
  /\ (cfg_ReadInterval (info_Config info) <> 0 ->
      cfg_ReadInterval (info_Config merged) <> 0)
  /\ cfg_DataFormat (info_Config merged) = cfg_DataFormat source
  /\ info_Source merged "dataformat"%string = Some sourceType
  /\ (source = mkConfig "" 0 0 DecimalFormat ->
      info_Config merged
      = mkConfig (cfg_Device (info_Config info))
          (cfg_SlaveID (info_Config info))
          (cfg_ReadInterval (info_Config info)) DecimalFormat).
Proof.
  unfold mergeConfig. cbv zeta.
  destruct (String.eqb_spec (cfg_Device source) "") as [Ed | Nd];
    destruct (Z.eqb_spec (cfg_SlaveID source) 0) as [Es | Ns];
    destruct (Z.eqb_spec (cfg_ReadInterval source) 0) as [Ei | Ni];
    cbn [negb info_Config info_Source cfg_Device cfg_SlaveID cfg_ReadInterval
         cfg_DataFormat];
    (repeat split; auto; try (unfold source_set; reflexivity));
    intros ->; cbn in *; congruence.
Qed.

(** X28.  For the defaults merged with a configuration file: validation
    succeeds exactly when the station of the file is at most 247 and
    its interval is 0 or at least 100ms.  A station 0 in the file
    leaves the default 0x16 and an interval 0 the default of one
    second; the device path of the file cannot make validation
    fail. *)
Theorem file_config_validation
    (windows : bool) (info : ConfigInfo) (file : Config) :
  0 <= cfg_SlaveID file <= 255 ->
  let merged := mergeConfig (setDefaults windows info) file SourceFile in
  (validateConfig (info_Config merged) = None
   <-> cfg_SlaveID file <= 247
       /\ (cfg_ReadInterval file = 0
           \/ 100 * Millisecond <= cfg_ReadInterval file))
  /\ (cfg_SlaveID file = 0 -> cfg_SlaveID (info_Config merged) = 22)
  /\ (cfg_ReadInterval file = 0 ->
      cfg_ReadInterval (info_Config merged) = Second).
Proof.
  intros Hb. unfold mergeConfig, setDefaults. cbv zeta.
  assert (Dev : (if windows then "COM1"%string else "/dev/ttyUSB0"%string)
                <> ""%string) by (destruct windows; discriminate).
  destruct (String.eqb_spec (cfg_Device file) "") as [Ed | Nd];
    destruct (Z.eqb_spec (cfg_SlaveID file) 0) as [Es | Ns];
    destruct (Z.eqb_spec (cfg_ReadInterval file) 0) as [Ei | Ni];
    cbn [negb info_Config info_Source cfg_Device cfg_SlaveID cfg_ReadInterval
         cfg_DataFormat];
    (split; [| split; [intros; try reflexivity; try contradiction
                      | intros; try reflexivity; try contradiction]]);
    unfold validateConfig;
    cbn [cfg_Device cfg_SlaveID cfg_ReadInterval cfg_DataFormat];
    match goal with
    | |- context [String.eqb ?d ""] =>
        destruct (String.eqb_spec d ""); [contradiction |]
    end;
    repeat match goal with
           | |- context [?a <? ?b] => destruct (Z.ltb_spec a b); cbn [orb]
           end;
    try (split; [discriminate | unfold Second, Millisecond in *; lia]);
    try (split; [intros _; unfold Second, Millisecond in *; lia | reflexivity]).
Qed.

Lemma file_config_validation_witness :
  let merged :=
    mergeConfig (setDefaults false (mkInfo (mkConfig "" 0 0 0) source_empty))
      (mkConfig "" 0 (50 * Millisecond) FloatFormat) SourceFile in
  (validateConfig (info_Config merged) = None
   <-> 0 <= 247
       /\ (50 * Millisecond = 0 \/ 100 * Millisecond <= 50 * Millisecond))
  /\ (0 = 0 -> cfg_SlaveID (info_Config merged) = 22)
  /\ (50 * Millisecond = 0 -> cfg_ReadInterval (info_Config merged) = Second).
Proof.
  apply (file_config_validation false (mkInfo (mkConfig "" 0 0 0) source_empty)
           (mkConfig "" 0 (50 * Millisecond) FloatFormat)).
  cbn. lia.
Defined.

Lemma Count_Update s v now : Count (Update s v now) = Count s + 1.
Proof.
  unfold Update. destruct (Count s =? 0); reflexivity.
Qed.

Lemma feed_app s xs ys now :
  feed s (xs ++ ys) now = feed (feed s xs now) ys now.
Proof. unfold feed. apply fold_left_app. Qed.

(** X29.  After [Reset] and one or more updates, the count is the number of
    values fed, the minimum and the maximum are values that were fed,
    and the time of the last update is recorded; after a single update
    minimum, maximum and mean are that value and the variance
    accumulator is 0. *)
Theorem feed_counts_and_bounds
    (s : Statistics) (v : float64) (vs : list float64) (now : Time) :
  let s' := feed (Reset s) (v :: vs) now in
  Count s' = 1 + Z.of_nat (List.length vs)
  /\ In (Min s') (v :: vs)
  /\ In (Max s') (v :: vs)
  /\ LastTime s' = now
  /\ (vs = [] -> Min s' = v /\ Max s' = v /\ Mean s' = v
                 /\ StdDev s' = F64.zero).
Proof.
  cbv zeta.
  assert (G : forall l s0 seen,
             0 < Count s0 -> In (Min s0) seen -> In (Max s0) seen ->
             LastTime s0 = now ->
             Count (feed s0 l now) = Count s0 + Z.of_nat (List.length l)
             /\ In (Min (feed s0 l now)) (seen ++ l)
             /\ In (Max (feed s0 l now)) (seen ++ l)
             /\ LastTime (feed s0 l now) = now).
  { induction l as [| x l IH]; intros s0 seen Hc Hmin Hmax Ht.
    - cbn. rewrite app_nil_r, Z.add_0_r. auto.
    - change (feed s0 (x :: l) now) with (feed (Update s0 x now) l now).
      destruct (IH (Update s0 x now) (seen ++ [x])) as (C & Mi & Ma & T).
      + rewrite Count_Update. lia.
      + unfold Update. destruct (Z.eqb_spec (Count s0) 0); [lia |].
        cbn [Min]. apply in_or_app.
        destruct (F64.ltb x (Min s0)); [right; left; reflexivity | left; exact Hmin].
      + unfold Update. destruct (Z.eqb_spec (Count s0) 0); [lia |].
        cbn [Max]. apply in_or_app.
        destruct (F64.gtb x (Max s0)); [right; left; reflexivity | left; exact Hmax].
      + reflexivity.
      + rewrite Count_Update in C. rewrite <- app_assoc in Mi, Ma.
        cbn [app List.length] in *. repeat split; auto. lia. }
  change (feed (Reset s) (v :: vs) now)
    with (feed (Update Statistics_zero v now) vs now).
  destruct (G vs (Update Statistics_zero v now) [v]) as (C & Mi & Ma & T);
    try (cbn; auto; lia).
  cbn [app] in *. split; [rewrite C; reflexivity |].
  repeat split; auto; subst; reflexivity.
Qed.

Lemma add_nan_r (x : float64) : F64.add x S754_nan = S754_nan.
Proof. destruct x; reflexivity. Qed.

Lemma Update_nan_sample s now :
  Mean (Update s S754_nan now) = S754_nan.
Proof.
  unfold Update. destruct (Count s =? 0); cbn [Mean]; [reflexivity |].
  apply add_nan_r.
Qed.

Lemma Update_nan_mean s v now :
  Count s <> 0 -> Mean s = S754_nan -> Mean (Update s v now) = S754_nan.
Proof.
  intros Hc Hm. unfold Update.
  destruct (Z.eqb_spec (Count s) 0); [contradiction |].
  cbn [Mean]. rewrite Hm. reflexivity.
Qed.

(** X30.  Once a NaN has been fed to the statistics the mean is NaN, and stays
    NaN whatever is fed afterwards. *)
Theorem feed_nan_poisons_mean
    (s : Statistics) (before after : list float64) (now : Time) :
  0 <= Count s ->
  Mean (feed s (before ++ S754_nan :: after) now) = S754_nan.
Proof.
  intros Hc. rewrite feed_app.
  assert (Cb : 0 <= Count (feed s before now)).
  { clear after. revert s Hc. induction before as [| x l IH]; intros s Hc;
      [exact Hc |].
    change (feed s (x :: l) now) with (feed (Update s x now) l now).
    apply IH. rewrite Count_Update. lia. }
  set (s1 := feed s before now) in *.
  change (feed s1 (S754_nan :: after) now)
    with (feed (Update s1 S754_nan now) after now).
  assert (H1 : 0 < Count (Update s1 S754_nan now))
    by (rewrite Count_Update; lia).
  pose proof (Update_nan_sample s1 now) as M1.
  generalize dependent (Update s1 S754_nan now). clear.
  induction after as [| x l IH]; intros s2 H M; [exact M |].
  change (feed s2 (x :: l) now) with (feed (Update s2 x now) l now).
  apply IH.
  - rewrite Count_Update. lia.
  - apply Update_nan_mean; [lia | exact M].
Qed.

Lemma feed_nan_poisons_mean_witness :
  Mean (feed Statistics_zero
          ([F64.of_int 10] ++ S754_nan :: [F64.of_int 20; F64.of_int 30]) 0)
  = S754_nan.
Proof.
  apply (feed_nan_poisons_mean Statistics_zero [F64.of_int 10]
           [F64.of_int 20; F64.of_int 30] 0).
  cbn. lia.
Defined.
